(** * Coincheck broker adapter: order reconciliation, strategy dispatch, quotes

    A shallow embedding of [src/Coincheck/BrokerAdapterImpl.ts].

    JavaScript numbers are IEEE 754 binary64 values, here the primitive
    floats of Rocq; [===] and [>] on numbers are [PrimFloat.eqb] and
    [PrimFloat.ltb].  A [Date] is its number of milliseconds since the epoch.
    The order handed to [cancel] and [refresh] is mutated in place: it lives
    in a store that survives a thrown exception.  Calls to the remote API and
    to the logger are recorded in the store, in the order they are made. *)

From Stdlib Require Import ZArith Floats.
From stdpp Require Import base option list strings gmap.

(** ** JavaScript values and the library functions the adapter calls *)

Abbreviation number := float.
Abbreviation Date := Z.

(** A thrown [Error] object, identified by its message. *)
Inductive exn : Type :=
  | Error (message : string).

#[global] Instance exn_eq_dec : EqDecision exn.
Proof. solve_decision. Defined.

Module DateFns.
(** [addMinutes(date, amount)] of date-fns. *)
Definition addMinutes (date : Date) (amount : Z) : Date :=
    (date + amount * 60000)%Z.
End DateFns.

Module Lodash.
(** [_.find(array, predicate)]: the first element the predicate accepts,
      [undefined] (here [None]) when there is none. *)
Definition find {A} (array : list A) (predicate : A → bool) : option A :=
    List.find predicate array.

(** [_.take(array, n)]. *)
Definition take {A} (array : list A) (n : nat) : list A :=
    firstn n array.

(** [baseSum]: the running result starts undefined, takes the first value
      as it is and adds every later one. *)
Fixpoint baseSum {A} (array : list A) (iteratee : A → number)
      (result : option number) : option number :=
    match array with
    | [] => result
    | x :: rest =>
        let current := iteratee x in
        baseSum rest iteratee
          (Some (match result with
                 | None => current
                 | Some r => (r + current)%float
                 end))
    end.

(** [_.sumBy(array, iteratee)]: 0 on an empty array. *)
Definition sumBy {A} (array : list A) (iteratee : A → number) : number :=
    match array with
    | [] => 0%float
    | _ => default 0%float (baseSum array iteratee None)
    end.

(** [_.concat(a, b)] on two arrays. *)
Definition concat {A} (a b : list A) : list A := a ++ b.
End Lodash.

(** ** Replies of the remote API ([./types], as section 6 of the
    specification lists them) *)

Module OpenOrder.
Record t : Type := mk {
    id : string;
    pending_amount : option number
  }.
End OpenOrder.

Module OpenOrdersResponse.
Record t : Type := mk { orders : list OpenOrder.t }.
End OpenOrdersResponse.

Module Funds.
Record t : Type := mk { btc : number }.
End Funds.

Module Transaction.
Record t : Type := mk {
    order_id : string;
    created_at : Date;
    rate : number;
    funds : Funds.t
  }.
End Transaction.

Module CancelOrderResponse.
Record t : Type := mk { success : bool }.
End CancelOrderResponse.

Module OrderBooksResponse.
Record t : Type := mk {
    asks : list (number * number);
    bids : list (number * number)
  }.
End OrderBooksResponse.

(** What the remote side answers.  Every call either returns a reply or
    rejects with a transport error. *)
Module BrokerApi.
Record t : Type := mk {
    getOrderBooks : exn + OrderBooksResponse.t;
    getOpenOrders : exn + OpenOrdersResponse.t;
    getTransactionsWithStartDate : Date → exn + list Transaction.t;
    cancelOrder : string → exn + CancelOrderResponse.t
  }.
End BrokerApi.

(** The calls an operation makes, as they are observed from outside. *)
Inductive Call : Type :=
  | GetOrderBooks
  | GetOpenOrders
  | GetTransactionsWithStartDate (from : Date)
  | CancelOrder (orderId : string)
  | LogWarn (message : string)
  | LogError (message : string)
  | LogDebug.

(** Whether a call consults the historical-transactions feed. *)
Definition isTransactionsCall (c : Call) : bool :=
  match c with
  | GetTransactionsWithStartDate _ => true
  | _ => false
  end.

Definition consultsTransactions (cs : list Call) : bool :=
  existsb isTransactionsCall cs.

(** ** Domain values ([../types], [../Order], [../Execution], [../Quote]) *)

(** Modelled from the spec: the enumeration [OrderStatus] of [../types],
    whose declaration is not among the sources; section 3 gives it as
    Open, PartiallyFilled, Filled, Canceled. *)
Inductive OrderStatus : Type :=
  | Open
  | PartiallyFilled
  | Filled
  | Canceled.

#[global] Instance OrderStatus_eq_dec : EqDecision OrderStatus.
Proof. solve_decision. Defined.

(** The terminal statuses of section 3. *)
Definition terminal (s : OrderStatus) : bool :=
  match s with
  | Filled | Canceled => true
  | Open | PartiallyFilled => false
  end.

Inductive QuoteSide : Type :=
  | Ask
  | Bid.

(** Modelled from the spec: the class [Execution] of [../Execution].  Its
    constructor takes the order; what it keeps of it is [origin], of a type
    left open.  The adapter then assigns [execTime], [price] and [size]. *)
Module Execution.
Record t (Origin : Type) : Type := mk {
    origin : Origin;
    execTime : Date;
    price : number;
    size : number
  }.
Arguments mk {Origin}.
Arguments origin {Origin}.
Arguments execTime {Origin}.
Arguments price {Origin}.
Arguments size {Origin}.
End Execution.

(** Modelled from the spec: the class [Order] of [../Order], with the
    identity fields and the reconciliation fields of section 3 and the broker
    tag that [send] reads. *)
Module Order.
Record t (Broker CashMarginType Origin : Type) : Type := mk {
    broker : Broker;
    brokerOrderId : string;
    cashMarginType : CashMarginType;
    size : number;
    creationTime : Date;
    filledSize : number;
    executions : list (Execution.t Origin);
    status : OrderStatus;
    lastUpdated : Date
  }.
Arguments mk {Broker CashMarginType Origin}.
Arguments broker {Broker CashMarginType Origin}.
Arguments brokerOrderId {Broker CashMarginType Origin}.
Arguments cashMarginType {Broker CashMarginType Origin}.
Arguments size {Broker CashMarginType Origin}.
Arguments creationTime {Broker CashMarginType Origin}.
Arguments filledSize {Broker CashMarginType Origin}.
Arguments executions {Broker CashMarginType Origin}.
Arguments status {Broker CashMarginType Origin}.
Arguments lastUpdated {Broker CashMarginType Origin}.

Section Setters.
Context {Broker CashMarginType Origin : Type}.
Implicit Type o : t Broker CashMarginType Origin.

(** [order.filledSize = v] *)
Definition set_filledSize (v : number) o :=
      mk (broker o) (brokerOrderId o) (cashMarginType o) (size o)
         (creationTime o) v (executions o) (status o) (lastUpdated o).

(** [order.executions = v] *)
Definition set_executions (v : list (Execution.t Origin)) o :=
      mk (broker o) (brokerOrderId o) (cashMarginType o) (size o)
         (creationTime o) (filledSize o) v (status o) (lastUpdated o).

(** [order.status = v] *)
Definition set_status (v : OrderStatus) o :=
      mk (broker o) (brokerOrderId o) (cashMarginType o) (size o)
         (creationTime o) (filledSize o) (executions o) v (lastUpdated o).

(** [order.lastUpdated = v] *)
Definition set_lastUpdated (v : Date) o :=
      mk (broker o) (brokerOrderId o) (cashMarginType o) (size o)
         (creationTime o) (filledSize o) (executions o) (status o) v.
End Setters.
End Order.

(** Modelled from the spec: the class [Quote] of [../Quote], an immutable
    value of a broker tag, a side, a price and a size. *)
Module Quote.
Record t (Broker : Type) : Type := mk {
    broker : Broker;
    side : QuoteSide;
    price : number;
    volume : number
  }.
Arguments mk {Broker}.
Arguments broker {Broker}.
Arguments side {Broker}.
Arguments price {Broker}.
Arguments volume {Broker}.
End Quote.

(** ** The adapter *)

Section Adapter.

(** The enumerations [Broker] and [CashMarginType] of [../types] are not
    among the sources: they are left open, with the members the adapter
    names.  A mode is printed into an error message by [showMode]. *)
Context {Broker : Type} `{!EqDecision Broker}.
Context {CashMarginType : Type} `{Countable CashMarginType}.
Context {Origin : Type}.
Context (Coincheck : Broker).
Context (Cash MarginOpen NetOut : CashMarginType).
Context (showMode : CashMarginType → string).

(** The numeric helpers [eRound] and [almostEqual] of [../util] are not
    among the sources either; the adapter is embedded over any pair. *)
Context (eRound : number → number).
Context (almostEqual : number → number → number → bool).

(** [new Execution(order)]: what the constructor keeps of the order. *)
Context (newExecution : Order.t Broker CashMarginType Origin → Origin).

(** *** Store, environment and the monad of adapter operations *)

Record Store : Type := mkStore {
  order : Order.t Broker CashMarginType Origin;
  calls : list Call
}.

Record Env : Type := mkEnv {
  brokerApi : BrokerApi.t;
  clock : Date
}.

Definition M (A : Type) : Type := Env → Store → Store * (exn + A).

Definition ret {A} (a : A) : M A := λ _ st, (st, inr a).

Definition bind {A B} (m : M A) (k : A → M B) : M B :=
  λ env st,
    match m env st with
    | (st', inl e) => (st', inl e)
    | (st', inr a) => k a env st'
    end.

#[local] Instance M_ret : MRet M := @ret.
#[local] Instance M_bind : MBind M := λ A B k m, bind m k.

(** [throw e] *)
Definition throw {A} (e : exn) : M A := λ _ st, (st, inl e).

(** [try { m } catch (ex) { handler ex }] *)
Definition tryCatch {A} (m : M A) (handler : exn → M A) : M A :=
  λ env st,
    match m env st with
    | (st', inl e) => handler e env st'
    | (st', inr a) => (st', inr a)
    end.

(** [await this.brokerApi.f(...)]: the call is recorded, and its rejection
    is thrown. *)
Definition await {A} (c : Call) (answer : BrokerApi.t → exn + A) : M A :=
  λ env st, (mkStore (order st) (calls st ++ [c]), answer (brokerApi env)).

(** [this.log.warn(...)] and the like. *)
Definition log (c : Call) : M unit :=
  λ _ st, (mkStore (order st) (calls st ++ [c]), inr tt).

(** [new Date()] *)
Definition newDate : M Date := λ env st, (st, inr (clock env)).

(** A read of the order object. *)
Definition readOrder : M (Order.t Broker CashMarginType Origin) :=
  λ _ st, (st, inr (order st)).

(** An assignment to a field of the order object. *)
Definition assign
    (f : Order.t Broker CashMarginType Origin →
         Order.t Broker CashMarginType Origin) : M unit :=
  λ _ st, (mkStore (f (order st)) (calls st), inr tt).

(** *** Strategies and construction *)

(** The contract of [CashMarginTypeStrategy] ([./types]); the three
    implementations are outside the sources. *)
Record CashMarginTypeStrategy : Type := mkStrategy {
  strategy_send : M unit;
  strategy_getBtcPosition : M number
}.

Context (CashStrategy MarginOpenStrategy NetOutStrategy : CashMarginTypeStrategy).

Record BrokerConfig : Type := mkBrokerConfig {
  key : string;
  secret : string;
  config_cashMarginType : CashMarginType
}.

Record BrokerAdapterImpl : Type := mkAdapter {
  config : BrokerConfig;
  broker : Broker;
  strategyMap : gmap CashMarginType CashMarginTypeStrategy
}.

(** The constructor, from the configuration [findBrokerConfig] returns.
    [new Map(entries)] sets the entries from first to last. *)
Definition constructor (cfg : BrokerConfig) : BrokerAdapterImpl :=
  mkAdapter cfg Coincheck
    (<[NetOut := NetOutStrategy]>
       (<[MarginOpen := MarginOpenStrategy]>
          (<[Cash := CashStrategy]> ∅))).

Context (this : BrokerAdapterImpl).

Definition strategyNotFound (mode : CashMarginType) : exn :=
  Error (String.append "Unable to find a strategy for "
           (String.append (showMode mode) ".")).

Definition getBtcPosition : M number :=
  match strategyMap this !! config_cashMarginType (config this) with
  | None => throw (strategyNotFound (config_cashMarginType (config this)))
  | Some strategy => strategy_getBtcPosition strategy
  end.

(** The quote of an order-book entry [[price, size]] on a side:
    [new Quote(this.broker, side, q[0], q[1])]. *)
Definition quoteOf (side : QuoteSide) (q : number * number) : Quote.t Broker :=
  Quote.mk (broker this) side q.1 q.2.

Definition mapToQuote (orderBooksResponse : OrderBooksResponse.t)
    : list (Quote.t Broker) :=
  let asks :=
    map (λ q, quoteOf Ask q)
        (Lodash.take (OrderBooksResponse.asks orderBooksResponse) 100) in
  let bids :=
    map (λ q, quoteOf Bid q)
        (Lodash.take (OrderBooksResponse.bids orderBooksResponse) 100) in
  Lodash.concat asks bids.

Definition fetchQuotes : M (list (Quote.t Broker)) :=
  tryCatch
    (response ← await GetOrderBooks BrokerApi.getOrderBooks;
     mret (mapToQuote response))
    (λ ex,
       match ex with
       | Error message => log (LogError message);; log LogDebug;; mret []
       end).

Definition send : M unit :=
  o ← readOrder;
  if negb (bool_decide (Order.broker o = broker this))
  then throw (Error EmptyString)
  else
    match strategyMap this !! Order.cashMarginType o with
    | None => throw (strategyNotFound (Order.cashMarginType o))
    | Some strategy => strategy_send strategy
    end.

Definition cancelFailed (orderId : string) : exn :=
  Error (String.append "Cancel " (String.append orderId " failed.")).

Definition cancel : M unit :=
  o ← readOrder;
  let orderId := Order.brokerOrderId o in
  reply ← await (CancelOrder orderId) (λ api, BrokerApi.cancelOrder api orderId);
  if negb (CancelOrderResponse.success reply)
  then throw (cancelFailed orderId)
  else
    now ← newDate;
    assign (Order.set_lastUpdated now);;
    assign (Order.set_status Canceled).

Definition unexpectedReply : exn := Error "Unexpected reply returned.".

(** The callback of [transactions.map] in [refresh]. *)
Definition toExecution (o : Order.t Broker CashMarginType Origin)
    (x : Transaction.t) : Execution.t Origin :=
  Execution.mk (newExecution o) (Transaction.created_at x)
    (Transaction.rate x) (PrimFloat.abs (Funds.btc (Transaction.funds x))).

Definition refresh : M unit :=
  reply ← await GetOpenOrders BrokerApi.getOpenOrders;
  o ← readOrder;
  match Lodash.find (OpenOrdersResponse.orders reply)
          (λ x, bool_decide (OpenOrder.id x = Order.brokerOrderId o)) with
  | Some brokerOrder =>
      match OpenOrder.pending_amount brokerOrder with
      | None => throw unexpectedReply
      | Some pending =>
          if (pending =? 0)%float then throw unexpectedReply
          else
            assign (Order.set_filledSize (eRound (Order.size o - pending)%float));;
            o ← readOrder;
            (if (0 <? Order.filledSize o)%float
             then assign (Order.set_status PartiallyFilled)
             else mret tt);;
            now ← newDate;
            assign (Order.set_lastUpdated now)
      end
  | None =>
      let from := DateFns.addMinutes (Order.creationTime o) (-1) in
      all ← await (GetTransactionsWithStartDate from)
              (λ api, BrokerApi.getTransactionsWithStartDate api from);
      o ← readOrder;
      let transactions :=
        List.filter
          (λ x, bool_decide (Transaction.order_id x = Order.brokerOrderId o))
          all in
      if Nat.eqb (length transactions) 0
      then log (LogWarn "The order is not found in pending orders and historical orders.")
      else
        assign (Order.set_executions (map (toExecution o) transactions));;
        o ← readOrder;
        assign (Order.set_filledSize
                  (eRound (Lodash.sumBy (Order.executions o) Execution.size)));;
        o ← readOrder;
        assign (Order.set_status
                  (if almostEqual (Order.filledSize o) (Order.size o) 1%float
                   then Filled else Canceled));;
        now ← newDate;
        assign (Order.set_lastUpdated now)
  end.

End Adapter.

(** ** What a run leaves behind *)

(** The calls made between the store [st] and the later store [st']. *)
Definition newCalls {Broker CashMarginType Origin : Type}
    (st st' : @Store Broker CashMarginType Origin) : list Call :=
  drop (length (calls st)) (calls st').

(** The open-orders snapshot arrives and lists [brokerOrder] as the first
    entry with the broker order id of the order in the store. *)
Definition foundOpen {Broker CashMarginType Origin : Type} (env : Env)
    (st : @Store Broker CashMarginType Origin)
    (brokerOrder : OpenOrder.t) : Prop :=
  ∃ reply,
    BrokerApi.getOpenOrders (brokerApi env) = inr reply ∧
    Lodash.find (OpenOrdersResponse.orders reply)
      (λ x, bool_decide (OpenOrder.id x = Order.brokerOrderId (order st)))
    = Some brokerOrder.

(** The open-orders snapshot arrives and has no entry with the broker order
    id of the order in the store. *)
Definition absentOpen {Broker CashMarginType Origin : Type} (env : Env)
    (st : @Store Broker CashMarginType Origin) : Prop :=
  ∃ reply,
    BrokerApi.getOpenOrders (brokerApi env) = inr reply ∧
    Lodash.find (OpenOrdersResponse.orders reply)
      (λ x, bool_decide (OpenOrder.id x = Order.brokerOrderId (order st)))
    = None.

(** The transactions feed, asked from one minute before the creation time
    of the order, arrives, and [transactions] are its entries with the broker
    order id of the order, in their order. *)
Definition matchingTransactions {Broker CashMarginType Origin : Type}
    (env : Env) (st : @Store Broker CashMarginType Origin)
    (transactions : list Transaction.t) : Prop :=
  ∃ all,
    BrokerApi.getTransactionsWithStartDate (brokerApi env)
      (DateFns.addMinutes (Order.creationTime (order st)) (-1)) = inr all ∧
    List.filter
      (λ x, bool_decide (Transaction.order_id x = Order.brokerOrderId (order st)))
      all = transactions.

(** An execution carries the time, the rate and the unsigned base-currency
    delta of a transaction. *)
Definition executionOf {Origin : Type} (x : Transaction.t)
    (e : Execution.t Origin) : Prop :=
  Execution.execTime e = Transaction.created_at x ∧
  Execution.price e = Transaction.rate x ∧
  Execution.size e = PrimFloat.abs (Funds.btc (Transaction.funds x)).

(** The order [refresh] leaves when the feed has [transactions] of it and
    the clock reads [now]: the four assignments of its last lines. *)
Definition settled {Broker CashMarginType Origin : Type}
    (eRound : number → number)
    (almostEqual : number → number → number → bool)
    (newExecution : Order.t Broker CashMarginType Origin → Origin)
    (now : Date) (o : Order.t Broker CashMarginType Origin)
    (transactions : list Transaction.t) : Order.t Broker CashMarginType Origin :=
  let o1 := Order.set_executions (map (toExecution newExecution o) transactions) o in
  let o2 := Order.set_filledSize
              (eRound (Lodash.sumBy (Order.executions o1) Execution.size)) o1 in
  let o3 := Order.set_status
              (if almostEqual (Order.filledSize o2) (Order.size o2) 1%float
               then Filled else Canceled) o2 in
  Order.set_lastUpdated now o3.

(** Two orders agree on the fields that [cancel] and [refresh] never
    assign. *)
Definition sameIdentity {Broker CashMarginType Origin : Type}
    (o o' : Order.t Broker CashMarginType Origin) : Prop :=
  Order.broker o = Order.broker o' ∧
  Order.brokerOrderId o = Order.brokerOrderId o' ∧
  Order.cashMarginType o = Order.cashMarginType o' ∧
  Order.size o = Order.size o' ∧
  Order.creationTime o = Order.creationTime o'.

(** The order [refresh] leaves when the snapshot lists it with the usable
    amount [pending] and the clock reads [now]: the assignments of its
    open-orders branch. *)
Definition stillOpen {Broker CashMarginType Origin : Type}
    (eRound : number → number) (now : Date) (pending : number)
    (o : Order.t Broker CashMarginType Origin)
    : Order.t Broker CashMarginType Origin :=
  let o1 := Order.set_filledSize (eRound (Order.size o - pending)%float) o in
  let o2 := if (0 <? Order.filledSize o1)%float
            then Order.set_status PartiallyFilled o1 else o1 in
  Order.set_lastUpdated now o2.

(** The start date [refresh] asks the transactions feed from. *)
Definition feedStart {Broker CashMarginType Origin : Type}
    (o : Order.t Broker CashMarginType Origin) : Date :=
  DateFns.addMinutes (Order.creationTime o) (-1).

Definition notFoundWarning : string :=
  "The order is not found in pending orders and historical orders.".

(** The paths of [refresh], one constructor for each way through its body:
    the calls it makes, the order it leaves and how it ends. *)
Inductive RefreshPath {Broker CashMarginType Origin : Type}
    (eRound : number → number)
    (almostEqual : number → number → number → bool)
    (newExecution : Order.t Broker CashMarginType Origin → Origin)
    (env : Env) (st : @Store Broker CashMarginType Origin)
    : list Call → Order.t Broker CashMarginType Origin → exn + unit → Prop :=
  | SnapshotRejected e :
      BrokerApi.getOpenOrders (brokerApi env) = inl e →
      RefreshPath eRound almostEqual newExecution env st
        [GetOpenOrders] (order st) (inl e)
  | PendingUnusable brokerOrder :
      foundOpen env st brokerOrder →
      (OpenOrder.pending_amount brokerOrder = None ∨
       ∃ pending, OpenOrder.pending_amount brokerOrder = Some pending ∧
                  (pending =? 0)%float = true) →
      RefreshPath eRound almostEqual newExecution env st
        [GetOpenOrders] (order st) (inl unexpectedReply)
  | StillOpen brokerOrder pending :
      foundOpen env st brokerOrder →
      OpenOrder.pending_amount brokerOrder = Some pending →
      (pending =? 0)%float = false →
      RefreshPath eRound almostEqual newExecution env st
        [GetOpenOrders] (stillOpen eRound (clock env) pending (order st))
        (inr tt)
  | FeedRejected e :
      absentOpen env st →
      BrokerApi.getTransactionsWithStartDate (brokerApi env)
        (feedStart (order st)) = inl e →
      RefreshPath eRound almostEqual newExecution env st
        [GetOpenOrders; GetTransactionsWithStartDate (feedStart (order st))]
        (order st) (inl e)
  | Unseen :
      absentOpen env st →
      matchingTransactions env st [] →
      RefreshPath eRound almostEqual newExecution env st
        [GetOpenOrders; GetTransactionsWithStartDate (feedStart (order st));
         LogWarn notFoundWarning]
        (order st) (inr tt)
  | Settled transactions :
      absentOpen env st →
      matchingTransactions env st transactions →
      transactions ≠ [] →
      RefreshPath eRound almostEqual newExecution env st
        [GetOpenOrders; GetTransactionsWithStartDate (feedStart (order st))]
        (settled eRound almostEqual newExecution (clock env) (order st)
           transactions)
        (inr tt).

(** Two orders agree on every field but [lastUpdated]. *)
Definition sameButLastUpdated {Broker CashMarginType Origin : Type}
    (o o' : Order.t Broker CashMarginType Origin) : Prop :=
  Order.set_lastUpdated 0%Z o = Order.set_lastUpdated 0%Z o'.

(** No execution of the order has a size below zero. *)
Definition sizesNotNegative {Broker CashMarginType Origin : Type}
    (o : Order.t Broker CashMarginType Origin) : Prop :=
  Forall (λ e, (Execution.size e <? 0)%float = false) (Order.executions o).

(** The price and the size a quote carries. *)
Definition entryOf {Broker : Type} (q : Quote.t Broker) : number * number :=
  (Quote.price q, Quote.volume q).

(** ** Sample values for concrete runs *)

Module Sample.

(** A stand-in for [eRound] on amounts that need no rounding: it returns
    its argument. *)
Definition eRound (n : number) : number := n.

(** A stand-in for [almostEqual]: the distance is at most the tolerance. *)
Definition almostEqual (a b tolerance : number) : bool :=
  (PrimFloat.abs (a - b) <=? tolerance)%float.

Definition newExecution (o : Order.t string string unit) : unit := tt.

Definition strategy : @CashMarginTypeStrategy string string unit :=
  mkStrategy (ret tt) (ret 0%float).

(** The adapter built for a configuration with the given mode. *)
Definition adapter (mode : string) : @BrokerAdapterImpl string string _ _ unit :=
  constructor "Coincheck" "Cash" "MarginOpen" "NetOut"
    strategy strategy strategy (mkBrokerConfig "key" "secret" mode).

(** An order for 5 units, with the given status. *)
Definition orderOf (s : OrderStatus) : Order.t string string unit :=
  Order.mk "Coincheck" "42" "Cash" 5%float 1000000%Z 0%float [] s 1000000%Z.

Definition store (s : OrderStatus) : @Store string string unit :=
  mkStore (orderOf s) [].

Definition transaction (id : string) (at_ : Date) (delta : number)
    : Transaction.t :=
  Transaction.mk id at_ 700000%float (Funds.mk delta).

(** The remote side with the given snapshot, feed and cancel answer. *)
Definition env (open : list OpenOrder.t) (feed : list Transaction.t)
    (cancelled : bool) : Env :=
  mkEnv
    (BrokerApi.mk
       (inr (OrderBooksResponse.mk [] []))
       (inr (OpenOrdersResponse.mk open))
       (λ _, inr feed)
       (λ _, inr (CancelOrderResponse.mk cancelled)))
    2000000%Z.

(** A snapshot that lists the order "42" with the given pending amount. *)
Definition listed (pending : option number) : list OpenOrder.t :=
  [OpenOrder.mk "7" (Some 1%float); OpenOrder.mk "42" pending].

(** A feed with two transactions of the order "42", of 3 and of -2. *)
Definition feed : list Transaction.t :=
  [transaction "42" 1000100%Z 3%float;
   transaction "7" 1000200%Z 1%float;
   transaction "42" 1000300%Z (-2)%float].

(** An order like [orderOf s], in a mode that has no strategy. *)
Definition strayOrder (s : OrderStatus) : Order.t string string unit :=
  Order.mk "Coincheck" "42" "MarginClose" 5%float 1000000%Z 0%float [] s
    1000000%Z.

(** An order book with 150 asks and 120 bids. *)
Definition deepBook : OrderBooksResponse.t :=
  OrderBooksResponse.mk
    (replicate 150 (700001%float, 1%float))
    (replicate 120 (699999%float, 2%float)).

(** The remote side when every call is rejected. *)
Definition offline : Env :=
  mkEnv
    (BrokerApi.mk
       (inl (Error "ETIMEDOUT")) (inl (Error "ETIMEDOUT"))
       (λ _, inl (Error "ETIMEDOUT")) (λ _, inl (Error "ETIMEDOUT")))
    2000000%Z.

(** The remote side with the given order book. *)
Definition market (book : OrderBooksResponse.t) : Env :=
  mkEnv
    (BrokerApi.mk (inr book) (inr (OpenOrdersResponse.mk []))
       (λ _, inr []) (λ _, inr (CancelOrderResponse.mk true)))
    2000000%Z.

(** A strategy that logs its name on [send] and reports a position. *)
Definition strategyOf (name : string) (position : number)
    : @CashMarginTypeStrategy string string unit :=
  mkStrategy (log (LogWarn name)) (ret position).

(** The adapter with three strategies that can be told apart. *)
Definition desk (mode : string) : @BrokerAdapterImpl string string _ _ unit :=
  constructor "Coincheck" "Cash" "MarginOpen" "NetOut"
    (strategyOf "cash" 1%float) (strategyOf "margin" 2%float)
    (strategyOf "net" 3%float) (mkBrokerConfig "key" "secret" mode).

(** An order of the given mode, with the given broker tag. *)
Definition orderFor (tag mode : string) : Order.t string string unit :=
  Order.mk tag "42" mode 5%float 1000000%Z 0%float [] Open 1000000%Z.

End Sample.

(** ** Properties of [refresh] and [cancel] *)

Section Reconciliation.

Context {Broker CashMarginType Origin : Type}.
Context (eRound : number → number).
Context (almostEqual : number → number → number → bool).
Context (newExecution : Order.t Broker CashMarginType Origin → Origin).

Implicit Types (env : Env) (st : @Store Broker CashMarginType Origin).

#[local] Ltac run :=
  unfold refresh, cancel, mbind, M_bind, mret, M_ret, bind, ret,
    await, throw, readOrder, assign, newDate, log;
  cbn [order calls].

#[local] Abbreviation refresh := (refresh eRound almostEqual newExecution).

Lemma newCalls_app st o' cs :
  newCalls st (mkStore o' (calls st ++ cs)) = cs.
Proof. unfold newCalls; cbn [calls]. by rewrite drop_app_length. Qed.

(** The whole run of [refresh] on an order the snapshot lists with a usable
    pending amount. *)
Lemma refresh_run_open env st brokerOrder pending :
  foundOpen env st brokerOrder →
  OpenOrder.pending_amount brokerOrder = Some pending →
  (pending =? 0)%float = false →
  refresh env st =
    (let filled := eRound (Order.size (order st) - pending)%float in
     let o1 := Order.set_filledSize filled (order st) in
     let o2 := if (0 <? filled)%float
               then Order.set_status PartiallyFilled o1 else o1 in
     (mkStore (Order.set_lastUpdated (clock env) o2)
        (calls st ++ [GetOpenOrders]), inr tt)).
Proof.
  intros (reply & Hreply & Hfind) Hpending Hnz. run.
  rewrite Hreply, Hfind, Hpending, Hnz. cbn.
  by destruct (0 <? _)%float.
Qed.

(** The whole run on an order the snapshot lists without a usable pending
    amount. *)
Lemma refresh_run_unexpected env st brokerOrder :
  foundOpen env st brokerOrder →
  (OpenOrder.pending_amount brokerOrder = None ∨
   ∃ pending, OpenOrder.pending_amount brokerOrder = Some pending ∧
              (pending =? 0)%float = true) →
  refresh env st =
    (mkStore (order st) (calls st ++ [GetOpenOrders]), inl unexpectedReply).
Proof.
  intros (reply & Hreply & Hfind) [Hnone | (pending & Hsome & Hz)]; run;
    rewrite Hreply, Hfind.
  - by rewrite Hnone.
  - by rewrite Hsome, Hz.
Qed.

(** The whole run on an order that is neither in the snapshot nor in the
    feed. *)
Lemma refresh_run_unseen env st :
  absentOpen env st →
  matchingTransactions env st [] →
  refresh env st =
    (mkStore (order st)
       (calls st ++
          [GetOpenOrders;
           GetTransactionsWithStartDate
             (DateFns.addMinutes (Order.creationTime (order st)) (-1));
           LogWarn "The order is not found in pending orders and historical orders."]),
     inr tt).
Proof.
  intros (reply & Hreply & Hfind) (all & Hall & Hfilter). run.
  rewrite Hreply, Hfind. cbn. rewrite Hall, Hfilter. cbn.
  by rewrite <- !app_assoc.
Qed.

(** The whole run on an order that left the snapshot and is in the feed. *)
Lemma refresh_run_settled env st transactions :
  absentOpen env st →
  matchingTransactions env st transactions →
  transactions ≠ [] →
  refresh env st =
    (mkStore (settled eRound almostEqual newExecution (clock env) (order st) transactions)
       (calls st ++
          [GetOpenOrders;
           GetTransactionsWithStartDate
             (DateFns.addMinutes (Order.creationTime (order st)) (-1))]),
     inr tt).
Proof.
  intros (reply & Hreply & Hfind) (all & Hall & Hfilter) Hne. run.
  rewrite Hreply, Hfind. cbn. rewrite Hall, Hfilter.
  destruct transactions as [|x rest]; [done|]. cbn.
  by rewrite <- !app_assoc.
Qed.

Lemma toExecution_executionOf o x : executionOf x (toExecution newExecution o x).
Proof. by unfold executionOf, toExecution. Qed.

(** [_.sumBy] on a non-empty array adds the values from left to right,
    starting from the first. *)
Lemma baseSum_fold {A} (l : list A) (f : A → number) (r : number) :
  Lodash.baseSum l f (Some r) =
  Some (fold_left (λ acc x, (acc + f x)%float) l r).
Proof. revert r. induction l as [|x l IH]; intros r; cbn; [done|]. apply IH. Qed.

Lemma sumBy_cons {A} (x : A) (l : list A) (f : A → number) :
  Lodash.sumBy (x :: l) f = fold_left (λ acc y, (acc + f y)%float) l (f x).
Proof. unfold Lodash.sumBy. cbn. by rewrite baseSum_fold. Qed.

(** Adding the sizes of the executions built from transactions adds the
    absolute base-currency deltas of the transactions. *)
Lemma fold_sizes_toExecution o (transactions : list Transaction.t) (acc : number) :
  fold_left (λ a e, (a + Execution.size e)%float)
    (map (toExecution newExecution o) transactions) acc =
  fold_left
    (λ a x, (a + PrimFloat.abs (Funds.btc (Transaction.funds x)))%float)
    transactions acc.
Proof.
  revert acc. induction transactions as [|x rest IH]; intros acc; cbn; [done|].
  apply IH.
Qed.

(** C1. When the order is absent from the open-orders snapshot and the feed
    has at least one transaction with its broker order id, [refresh] succeeds
    and leaves one execution per matching transaction, in their order, each
    with the transaction's [created_at] as time, its [rate] as price and the
    absolute value of its [funds.btc] as size; the filled size is [eRound] of
    the sum of the execution sizes, added from the first to the last, which
    is the sum of the absolute deltas of the transactions; the status is
    Filled when [almostEqual] holds of the filled size and the requested size
    at tolerance 1, and Canceled otherwise. *)
Theorem refresh_settled_executions env st transactions :
  absentOpen env st →
  matchingTransactions env st transactions →
  transactions ≠ [] →
  ∃ st',
    refresh env st = (st', inr tt) ∧
    length (Order.executions (order st')) = length transactions ∧
    Forall2
      (λ x e,
         Execution.execTime e = Transaction.created_at x ∧
         Execution.price e = Transaction.rate x ∧
         Execution.size e = PrimFloat.abs (Funds.btc (Transaction.funds x)))
      transactions (Order.executions (order st')) ∧
    Order.filledSize (order st') =
      eRound
        (match Order.executions (order st') with
         | [] => 0%float
         | e :: es =>
             fold_left (λ acc e', (acc + Execution.size e')%float) es
               (Execution.size e)
         end) ∧
    Order.filledSize (order st') =
      eRound
        (match transactions with
         | [] => 0%float
         | x :: xs =>
             fold_left
               (λ acc y,
                  (acc + PrimFloat.abs (Funds.btc (Transaction.funds y)))%float)
               xs (PrimFloat.abs (Funds.btc (Transaction.funds x)))
         end) ∧
    Order.status (order st') =
      (if almostEqual (Order.filledSize (order st')) (Order.size (order st)) 1%float
       then Filled else Canceled).
Proof.
  intros Habsent Hmatch Hne. eexists. split.
  { by apply refresh_run_settled. }
  destruct transactions as [|x xs]; [done|].
  cbn [order settled Order.filledSize Order.executions Order.status
       Order.size Order.set_lastUpdated Order.set_status
       Order.set_filledSize Order.set_executions].
  split; [by rewrite length_map|]. split.
  { apply Forall2_fmap_r, Forall_Forall2_diag, Forall_forall.
    intros y _. by unfold toExecution. }
  cbn [map]. rewrite sumBy_cons. split; [done|]. split; [|done].
  f_equal. apply fold_sizes_toExecution.
Qed.

(** C2. When the open-orders snapshot lists the order with a pending amount
    that is absent or [=== 0], [refresh] throws the error "Unexpected reply
    returned.", the order is as it was, and no call to the transactions feed
    is made. *)
Theorem refresh_unexpected_reply env st brokerOrder :
  foundOpen env st brokerOrder →
  (OpenOrder.pending_amount brokerOrder = None ∨
   ∃ pending, OpenOrder.pending_amount brokerOrder = Some pending ∧
              (pending =? 0)%float = true) →
  ∃ st',
    refresh env st = (st', inl unexpectedReply) ∧
    order st' = order st ∧
    consultsTransactions (newCalls st st') = false.
Proof.
  intros Hfound Hbad. eexists. split.
  { by apply refresh_run_unexpected with brokerOrder. }
  split; [done|]. by rewrite newCalls_app.
Qed.

(** C3. When the open-orders snapshot lists the order with a pending amount
    that is present and not [=== 0], [refresh] succeeds; the filled size is
    [eRound (size - pending)]; the status is PartiallyFilled when that filled
    size is [> 0] and the former status otherwise; the last-updated time is
    the current time; the executions are as they were; and no call to the
    transactions feed is made. *)
Theorem refresh_still_open env st brokerOrder pending :
  foundOpen env st brokerOrder →
  OpenOrder.pending_amount brokerOrder = Some pending →
  (pending =? 0)%float = false →
  ∃ st',
    refresh env st = (st', inr tt) ∧
    Order.filledSize (order st') = eRound (Order.size (order st) - pending)%float ∧
    Order.status (order st') =
      (if (0 <? eRound (Order.size (order st) - pending))%float
       then PartiallyFilled else Order.status (order st)) ∧
    Order.lastUpdated (order st') = clock env ∧
    Order.executions (order st') = Order.executions (order st) ∧
    consultsTransactions (newCalls st st') = false.
Proof.
  intros Hfound Hpending Hnz. eexists. split.
  { by apply refresh_run_open with brokerOrder. }
  cbn. rewrite newCalls_app.
  by destruct (0 <? _)%float.
Qed.

(** C4. When the order is absent from the open-orders snapshot and the feed
    has no transaction with its broker order id, [refresh] succeeds and the
    order is as it was. *)
Theorem refresh_unseen_noop env st :
  absentOpen env st →
  matchingTransactions env st [] →
  ∃ st', refresh env st = (st', inr tt) ∧ order st' = order st.
Proof.
  intros Habsent Hmatch. eexists. split.
  { by apply refresh_run_unseen. }
  done.
Qed.

(** The whole run of [cancel] once the remote side has answered. *)
Lemma cancel_run env st reply :
  BrokerApi.cancelOrder (brokerApi env) (Order.brokerOrderId (order st))
    = inr reply →
  cancel env st =
    let cs := calls st ++ [CancelOrder (Order.brokerOrderId (order st))] in
    if CancelOrderResponse.success reply
    then (mkStore
            (Order.set_status Canceled
               (Order.set_lastUpdated (clock env) (order st))) cs, inr tt)
    else (mkStore (order st) cs,
          inl (cancelFailed (Order.brokerOrderId (order st)))).
Proof.
  intros Hreply. run. rewrite Hreply. cbn.
  by destruct (CancelOrderResponse.success reply).
Qed.

(** A terminal order that the snapshot still lists with a usable pending
    amount and a positive rounded difference becomes PartiallyFilled. *)
Lemma refresh_reopens env st brokerOrder pending :
  foundOpen env st brokerOrder →
  OpenOrder.pending_amount brokerOrder = Some pending →
  (pending =? 0)%float = false →
  (0 <? eRound (Order.size (order st) - pending))%float = true →
  Order.status (order (refresh env st).1) = PartiallyFilled.
Proof.
  intros Hfound Hpending Hnz Hpos.
  rewrite (refresh_run_open env st brokerOrder pending) by done.
  cbn. by rewrite Hpos.
Qed.

(** [cancel] leaves a terminal order terminal, whatever the remote side
    answers. *)
Lemma cancel_terminal env st :
  terminal (Order.status (order st)) = true →
  terminal (Order.status (order (cancel env st).1)) = true.
Proof.
  intros Hterm.
  destruct (BrokerApi.cancelOrder (brokerApi env)
              (Order.brokerOrderId (order st))) as [e|reply] eqn:Hreply.
  - run. by rewrite Hreply.
  - rewrite (cancel_run env st reply) by done. cbn.
    by destruct (CancelOrderResponse.success reply).
Qed.

(** Every path of [refresh], from a terminal order. *)
Lemma refresh_terminal_cases env st :
  terminal (Order.status (order st)) = true →
  terminal (Order.status (order (refresh env st).1)) = true ∨
  (Order.status (order (refresh env st).1) = PartiallyFilled ∧
   ∃ brokerOrder pending,
     foundOpen env st brokerOrder ∧
     OpenOrder.pending_amount brokerOrder = Some pending ∧
     (pending =? 0)%float = false ∧
     (0 <? eRound (Order.size (order st) - pending))%float = true).
Proof.
  intros Hterm.
  destruct (BrokerApi.getOpenOrders (brokerApi env)) as [e|reply] eqn:Hreply.
  { left. run. by rewrite Hreply. }
  destruct (Lodash.find (OpenOrdersResponse.orders reply)
              (λ x, bool_decide (OpenOrder.id x = Order.brokerOrderId (order st))))
    as [brokerOrder|] eqn:Hfind.
  - assert (Hfound : foundOpen env st brokerOrder) by (by exists reply).
    destruct (OpenOrder.pending_amount brokerOrder) as [pending|] eqn:Hp.
    2:{ left. rewrite (refresh_run_unexpected env st brokerOrder); auto. }
    destruct (pending =? 0)%float eqn:Hz.
    { left. rewrite (refresh_run_unexpected env st brokerOrder); eauto. }
    rewrite (refresh_run_open env st brokerOrder pending) by done. cbn.
    destruct (0 <? eRound (Order.size (order st) - pending))%float eqn:Hpos.
    + right. split; [done|]. by exists brokerOrder, pending.
    + by left.
  - assert (Habsent : absentOpen env st) by (by exists reply).
    left.
    destruct (BrokerApi.getTransactionsWithStartDate (brokerApi env)
                (DateFns.addMinutes (Order.creationTime (order st)) (-1)))
      as [e|all] eqn:Hall.
    { run. rewrite Hreply, Hfind. cbn. by rewrite Hall. }
    destruct (List.filter
                (λ x, bool_decide
                        (Transaction.order_id x = Order.brokerOrderId (order st)))
                all) as [|x rest] eqn:Hfilter.
    + rewrite refresh_run_unseen; [done|done|by exists all].
    + rewrite (refresh_run_settled env st (x :: rest));
        [|done|by exists all|done].
      cbn. by destruct (almostEqual _ _ _).
Qed.

(** C5, as amended. For an order whose status is Filled or Canceled:
    [cancel] leaves a terminal status, whatever the remote side answers;
    [refresh] never sets the status to Open, and it leaves a terminal status
    except that it sets PartiallyFilled when the open-orders snapshot lists
    the order with a pending amount that is present and not [=== 0] and
    [eRound (size - pending)] is [> 0]. *)
Theorem terminal_status_after env st :
  terminal (Order.status (order st)) = true →
  terminal (Order.status (order (cancel env st).1)) = true ∧
  Order.status (order (refresh env st).1) ≠ Open ∧
  (terminal (Order.status (order (refresh env st).1)) = true ∨
   (Order.status (order (refresh env st).1) = PartiallyFilled ∧
    ∃ brokerOrder pending,
      foundOpen env st brokerOrder ∧
      OpenOrder.pending_amount brokerOrder = Some pending ∧
      (pending =? 0)%float = false ∧
      (0 <? eRound (Order.size (order st) - pending))%float = true)).
Proof.
  intros Hterm.
  pose proof (refresh_terminal_cases env st Hterm) as Hcases.
  split; [by apply cancel_terminal|]. split; [|exact Hcases].
  intros Hopen. rewrite Hopen in Hcases.
  by destruct Hcases as [?|[? _]].
Qed.

(** The status and the executions of a settled order depend on the order
    through its identity fields only, when the [Execution] constructor
    does. *)
Lemma settled_stable now now' (o o' : Order.t Broker CashMarginType Origin)
    transactions :
  sameIdentity o o' →
  newExecution o = newExecution o' →
  Order.status (settled eRound almostEqual newExecution now o transactions) =
  Order.status (settled eRound almostEqual newExecution now' o' transactions) ∧
  Order.executions (settled eRound almostEqual newExecution now o transactions) =
  Order.executions (settled eRound almostEqual newExecution now' o' transactions).
Proof.
  intros (_ & _ & _ & Hsize & _) Hnew. cbn. unfold toExecution.
  by rewrite Hnew, Hsize.
Qed.

(** C6. For an order that is Filled or Canceled, absent from the
    open-orders snapshot and present in the feed, two runs of [refresh] in a
    row against the same remote answers both succeed, and the second leaves
    the status and the executions of the first.  The [Execution] constructor
    is taken to read only fields of the order that [refresh] does not
    assign. *)
Theorem refresh_twice_stable env env' st transactions :
  (∀ o o', sameIdentity o o' → newExecution o = newExecution o') →
  terminal (Order.status (order st)) = true →
  absentOpen env st →
  matchingTransactions env st transactions →
  transactions ≠ [] →
  brokerApi env' = brokerApi env →
  ∃ st1 st2,
    refresh env st = (st1, inr tt) ∧
    refresh env' st1 = (st2, inr tt) ∧
    Order.status (order st2) = Order.status (order st1) ∧
    Order.executions (order st2) = Order.executions (order st1).
Proof.
  intros Hctor _ (reply & Hreply & Hfind) (all & Hall & Hfilter) Hne Hapi.
  do 2 eexists. split.
  { apply refresh_run_settled; [by exists reply|by exists all|done]. }
  split.
  { apply refresh_run_settled with (transactions := transactions);
      [exists reply|exists all|done]; by rewrite Hapi. }
  cbn [order].
  assert (Hid : sameIdentity
            (settled eRound almostEqual newExecution (clock env) (order st)
               transactions) (order st)) by (by repeat split).
  destruct (settled_stable (clock env') (clock env) _ _ transactions Hid
              (Hctor _ _ Hid)) as [Hs He].
  split; [exact Hs|exact He].
Qed.

(** C7. Once the remote side has answered a cancel request: when the answer
    reports failure, [cancel] throws the error "Cancel <order id> failed."
    and the status and the last-updated time of the order are as they were;
    when it reports success, [cancel] succeeds, the status is Canceled and
    the last-updated time is the current time. *)
Theorem cancel_acknowledged env st reply :
  BrokerApi.cancelOrder (brokerApi env) (Order.brokerOrderId (order st))
    = inr reply →
  ∃ st',
    cancel env st =
      (st', if CancelOrderResponse.success reply then inr tt
            else inl (cancelFailed (Order.brokerOrderId (order st)))) ∧
    if CancelOrderResponse.success reply
    then Order.status (order st') = Canceled ∧
         Order.lastUpdated (order st') = clock env
    else Order.status (order st') = Order.status (order st) ∧
         Order.lastUpdated (order st') = Order.lastUpdated (order st).
Proof.
  intros Hreply. rewrite (cancel_run env st reply) by done. cbn.
  destruct (CancelOrderResponse.success reply); eexists; split; done.
Qed.

(** A number below zero is not above it. *)
Lemma ltb_zero_asym (x : number) :
  (x <? 0)%float = true → (0 <? x)%float = false.
Proof.
  rewrite !ltb_spec.
  replace (Prim2SF 0) with (S754_zero false) by reflexivity.
  destruct (Prim2SF x) as [[]|[]| |[] m e]; cbn; congruence.
Qed.

(** C10. Some order, found in the open-orders snapshot with a pending amount
    that is present, not [=== 0] and greater than its requested size, makes
    [refresh] succeed with a filled size below zero, namely
    [eRound (size - pending)], and with the status it had.  The order asks
    for 1, has a filled size of 0 before the call, and the snapshot reports
    2 pending; the rounding utility is taken to map -1 below zero. *)
Theorem refresh_negative_filled_size (b : Broker) (m : CashMarginType)
    (s : OrderStatus) :
  (eRound (-1) <? 0)%float = true →
  ∃ env st brokerOrder pending st',
    Order.status (order st) = s ∧
    Order.filledSize (order st) = 0%float ∧
    foundOpen env st brokerOrder ∧
    OpenOrder.pending_amount brokerOrder = Some pending ∧
    (pending =? 0)%float = false ∧
    (Order.size (order st) <? pending)%float = true ∧
    refresh env st = (st', inr tt) ∧
    Order.filledSize (order st') = eRound (Order.size (order st) - pending)%float ∧
    (Order.filledSize (order st') <? 0)%float = true ∧
    Order.status (order st') = Order.status (order st).
Proof.
  intros Hneg.
  set (o := Order.mk b "1" m 1%float 0%Z 0%float [] s 0%Z
            : Order.t Broker CashMarginType Origin).
  set (entry := OpenOrder.mk "1" (Some 2%float)).
  set (api := BrokerApi.mk (inl (Error "offline"))
                (inr (OpenOrdersResponse.mk [entry]))
                (λ _, inl (Error "offline")) (λ _, inl (Error "offline"))).
  assert (Hfound : foundOpen (mkEnv api 0%Z) (mkStore o []) entry).
  { exists (OpenOrdersResponse.mk [entry]). by split. }
  exists (mkEnv api 0%Z), (mkStore o []), entry, 2%float. eexists.
  split; [done|]. split; [done|]. split; [done|]. split; [done|].
  split; [done|].
  split; [done|]. split.
  { by apply refresh_run_open with entry. }
  cbn. change (1 - 2)%float with (-1)%float.
  rewrite (ltb_zero_asym _ Hneg). cbn. by rewrite Hneg.
Qed.

End Reconciliation.

(** ** Properties of strategy dispatch and of the quote builder *)

Section Dispatch.

Context {Broker : Type} `{!EqDecision Broker}.
Context {CashMarginType : Type} `{Countable CashMarginType}.
Context {Origin : Type}.
Context (Coincheck : Broker).
Context (Cash MarginOpen NetOut : CashMarginType).
Context (showMode : CashMarginType → string).
Context (CashStrategy MarginOpenStrategy NetOutStrategy :
           @CashMarginTypeStrategy Broker CashMarginType Origin).

Implicit Types (env : Env) (st : @Store Broker CashMarginType Origin).
Implicit Types (this : @BrokerAdapterImpl Broker CashMarginType _ _ Origin).

#[local] Abbreviation new :=
  (constructor Coincheck Cash MarginOpen NetOut
     CashStrategy MarginOpenStrategy NetOutStrategy).

Lemma constructor_dom cfg :
  dom (strategyMap (new cfg)) = ({[Cash; MarginOpen; NetOut]} : gset CashMarginType).
Proof.
  cbn. rewrite !dom_insert_L, dom_empty_L, (right_id_L ∅ (∪)).
  rewrite (comm_L (∪) {[NetOut]}), (comm_L (∪) {[MarginOpen]}).
  reflexivity.
Qed.

(** [getBtcPosition] on any adapter whose configured mode has no strategy. *)
Lemma getBtcPosition_unmapped this env st :
  config_cashMarginType (config this) ∉ dom (strategyMap this) →
  getBtcPosition showMode this env st =
    (st, inl (strategyNotFound showMode (config_cashMarginType (config this)))).
Proof.
  intros Hnot%not_elem_of_dom. unfold getBtcPosition. by rewrite Hnot.
Qed.

(** [send], past its broker guard, on an order whose mode has no strategy. *)
Lemma send_unmapped this env st :
  Order.broker (order st) = broker this →
  Order.cashMarginType (order st) ∉ dom (strategyMap this) →
  send showMode this env st =
    (st, inl (strategyNotFound showMode (Order.cashMarginType (order st)))).
Proof.
  intros Hbroker Hnot%not_elem_of_dom.
  unfold send, mbind, M_bind, bind, readOrder, throw.
  rewrite bool_decide_eq_true_2 by done. cbn. by rewrite Hnot.
Qed.

(** [fetchQuotes] never throws and never touches the order. *)
Lemma fetchQuotes_total this env st :
  ∃ quotes cs,
    fetchQuotes this env st = (mkStore (order st) (calls st ++ cs), inr quotes).
Proof.
  unfold fetchQuotes, tryCatch, mbind, M_bind, mret, M_ret, bind, ret, await, log.
  cbn [order calls].
  destruct (BrokerApi.getOrderBooks (brokerApi env)) as [[message]|response].
  - exists [], [GetOrderBooks; LogError message; LogDebug].
    cbn. by rewrite <- !app_assoc.
  - by exists (mapToQuote this response), [GetOrderBooks].
Qed.

(** C8. The adapter the constructor builds maps exactly the modes Cash,
    MarginOpen and NetOut, and no operation of the adapter changes it.
    [getBtcPosition] resolves the configured mode and [send], once the order
    has the adapter's broker tag, resolves the order's own mode; each throws
    the error "Unable to find a strategy for <mode>." when the mode it
    resolves is not among the keys of the map. *)
Theorem strategy_not_found cfg env st :
  let this := new cfg in
  dom (strategyMap this) = ({[Cash; MarginOpen; NetOut]} : gset CashMarginType) ∧
  (config_cashMarginType cfg ∉ dom (strategyMap this) →
   getBtcPosition showMode this env st =
     (st, inl (strategyNotFound showMode (config_cashMarginType cfg)))) ∧
  (Order.broker (order st) = broker this →
   Order.cashMarginType (order st) ∉ dom (strategyMap this) →
   send showMode this env st =
     (st, inl (strategyNotFound showMode (Order.cashMarginType (order st))))).
Proof.
  intros this. split; [apply constructor_dom|]. split.
  - apply (getBtcPosition_unmapped this).
  - apply send_unmapped.
Qed.

Lemma lookup_quotes this side (entries : list (number * number)) i :
  map (quoteOf this side) (Lodash.take entries 100) !! i =
  if decide (i < 100) then quoteOf this side <$> entries !! i else None.
Proof.
  unfold Lodash.take.
  change (map (quoteOf this side) (take 100 entries))
    with (quoteOf this side <$> take 100 entries).
  rewrite list_lookup_fmap. case_decide.
  - by rewrite lookup_take_lt.
  - by rewrite lookup_take_ge by lia.
Qed.

(** C9. For every order book, [mapToQuote] returns the quotes of the asks
    followed by the quotes of the bids; each part holds, position by
    position, the quotes of the first 100 entries of its side (fewer when
    the side is shorter): the quote of an entry carries the broker of the
    adapter, the side (Ask for an ask, Bid for a bid), the first component
    of the entry as price and the second as size.  With at least 100 entries
    on each side the result has 200
    quotes; with no entry on either side it is empty.  The builder is a
    total function: it has no error outcome. *)
Theorem mapToQuote_bounded this (orderBook : OrderBooksResponse.t) :
  ∃ asks bids : list (Quote.t Broker),
    mapToQuote this orderBook = asks ++ bids ∧
    length asks = 100 `min` length (OrderBooksResponse.asks orderBook) ∧
    length bids = 100 `min` length (OrderBooksResponse.bids orderBook) ∧
    (∀ i, asks !! i =
          if decide (i < 100)
          then (λ q, Quote.mk (broker this) Ask q.1 q.2) <$>
                 OrderBooksResponse.asks orderBook !! i
          else None) ∧
    (∀ i, bids !! i =
          if decide (i < 100)
          then (λ q, Quote.mk (broker this) Bid q.1 q.2) <$>
                 OrderBooksResponse.bids orderBook !! i
          else None) ∧
    (100 ≤ length (OrderBooksResponse.asks orderBook) →
     100 ≤ length (OrderBooksResponse.bids orderBook) →
     length asks = 100 ∧ length bids = 100 ∧
     length (mapToQuote this orderBook) = 200) ∧
    (OrderBooksResponse.asks orderBook = [] →
     OrderBooksResponse.bids orderBook = [] →
     mapToQuote this orderBook = []).
Proof.
  exists (map (quoteOf this Ask)
            (Lodash.take (OrderBooksResponse.asks orderBook) 100)),
         (map (quoteOf this Bid)
            (Lodash.take (OrderBooksResponse.bids orderBook) 100)).
  split; [done|].
  split; [by rewrite length_map; apply length_take|].
  split; [by rewrite length_map; apply length_take|].
  split; [intros i; exact (lookup_quotes this Ask _ i)|].
  split; [intros i; exact (lookup_quotes this Bid _ i)|]. split.
  - intros Ha Hb. unfold mapToQuote, Lodash.concat, Lodash.take.
    rewrite length_app, !length_map, !length_take. lia.
  - intros Ha Hb. unfold mapToQuote. by rewrite Ha, Hb.
Qed.

End Dispatch.

(** ** Concrete runs *)

Section Runs.

#[local] Abbreviation refresh :=
  (refresh Sample.eRound Sample.almostEqual Sample.newExecution).

Lemma refresh_settled_executions_witness :
  let env := Sample.env [] Sample.feed true in
  let st := Sample.store Open in
  ∃ st',
    refresh env st = (st', inr tt) ∧
    length (Order.executions (order st')) = 2 ∧
    Forall2
      (λ x e,
         Execution.execTime e = Transaction.created_at x ∧
         Execution.price e = Transaction.rate x ∧
         Execution.size e = PrimFloat.abs (Funds.btc (Transaction.funds x)))
      [Sample.transaction "42" 1000100%Z 3%float;
       Sample.transaction "42" 1000300%Z (-2)%float]
      (Order.executions (order st')) ∧
    Order.filledSize (order st') =
      Sample.eRound
        (match Order.executions (order st') with
         | [] => 0%float
         | e :: es =>
             fold_left (λ acc e', (acc + Execution.size e')%float) es
               (Execution.size e)
         end) ∧
    Order.filledSize (order st') =
      Sample.eRound (PrimFloat.abs 3 + PrimFloat.abs (-2))%float ∧
    Order.status (order st') =
      (if Sample.almostEqual (Order.filledSize (order st')) 5%float 1%float
       then Filled else Canceled).
Proof.
  apply (refresh_settled_executions Sample.eRound Sample.almostEqual
           Sample.newExecution (Sample.env [] Sample.feed true)
           (Sample.store Open)
           [Sample.transaction "42" 1000100%Z 3%float;
            Sample.transaction "42" 1000300%Z (-2)%float]).
  - exists (OpenOrdersResponse.mk []). split; reflexivity.
  - exists Sample.feed. split; reflexivity.
  - discriminate.
Defined.

(** The run above ends Filled, with a filled size of 5. *)
Example refresh_settled_filled :
  let st' := (refresh (Sample.env [] Sample.feed true) (Sample.store Open)).1 in
  Order.status (order st') = Filled ∧ Order.filledSize (order st') = 5%float.
Proof. split; reflexivity. Qed.

Lemma refresh_unexpected_reply_witness :
  let env := Sample.env (Sample.listed (Some 0%float)) Sample.feed true in
  let st := Sample.store Open in
  ∃ st',
    refresh env st = (st', inl unexpectedReply) ∧
    order st' = order st ∧
    consultsTransactions (newCalls st st') = false.
Proof.
  apply (refresh_unexpected_reply Sample.eRound Sample.almostEqual
           Sample.newExecution
           (Sample.env (Sample.listed (Some 0%float)) Sample.feed true)
           (Sample.store Open) (OpenOrder.mk "42" (Some 0%float))).
  - exists (OpenOrdersResponse.mk (Sample.listed (Some 0%float))).
    split; reflexivity.
  - right. exists 0%float. split; reflexivity.
Defined.

Lemma refresh_still_open_witness :
  let env := Sample.env (Sample.listed (Some 2%float)) Sample.feed true in
  let st := Sample.store Open in
  ∃ st',
    refresh env st = (st', inr tt) ∧
    Order.filledSize (order st') = Sample.eRound (5 - 2)%float ∧
    Order.status (order st') =
      (if (0 <? Sample.eRound (5 - 2))%float then PartiallyFilled else Open) ∧
    Order.lastUpdated (order st') = 2000000%Z ∧
    Order.executions (order st') = [] ∧
    consultsTransactions (newCalls st st') = false.
Proof.
  apply (refresh_still_open Sample.eRound Sample.almostEqual
           Sample.newExecution
           (Sample.env (Sample.listed (Some 2%float)) Sample.feed true)
           (Sample.store Open) (OpenOrder.mk "42" (Some 2%float)) 2%float).
  - exists (OpenOrdersResponse.mk (Sample.listed (Some 2%float))).
    split; reflexivity.
  - reflexivity.
  - reflexivity.
Defined.

Lemma refresh_unseen_noop_witness :
  let env := Sample.env [] [Sample.transaction "7" 1000200%Z 1%float] true in
  let st := Sample.store PartiallyFilled in
  ∃ st', refresh env st = (st', inr tt) ∧ order st' = order st.
Proof.
  apply (refresh_unseen_noop Sample.eRound Sample.almostEqual
           Sample.newExecution
           (Sample.env [] [Sample.transaction "7" 1000200%Z 1%float] true)
           (Sample.store PartiallyFilled)).
  - exists (OpenOrdersResponse.mk []). split; reflexivity.
  - exists [Sample.transaction "7" 1000200%Z 1%float]. split; reflexivity.
Defined.

(** C5, as stated, fails. The order "42" is Canceled and asks for 5; the
    open-orders snapshot still lists it with 2 pending.  [refresh] succeeds,
    sets the filled size to the rounded 5 - 2 = 3, which is [> 0], and the
    status to PartiallyFilled, which is not terminal. *)
Lemma refresh_reopens_canceled_order :
  let env := Sample.env (Sample.listed (Some 2%float)) Sample.feed true in
  let st := Sample.store Canceled in
  terminal (Order.status (order st)) = true ∧
  (refresh env st).2 = inr tt ∧
  Order.status (order (refresh env st).1) = PartiallyFilled ∧
  terminal (Order.status (order (refresh env st).1)) = false.
Proof. repeat split; reflexivity. Qed.

Lemma terminal_status_after_witness :
  let env := Sample.env [] Sample.feed false in
  let st := Sample.store Filled in
  terminal (Order.status (order st)) = true ∧
  terminal (Order.status (order (cancel env st).1)) = true ∧
  Order.status (order (refresh env st).1) ≠ Open ∧
  (terminal (Order.status (order (refresh env st).1)) = true ∨
   (Order.status (order (refresh env st).1) = PartiallyFilled ∧
    ∃ brokerOrder pending,
      foundOpen env st brokerOrder ∧
      OpenOrder.pending_amount brokerOrder = Some pending ∧
      (pending =? 0)%float = false ∧
      (0 <? Sample.eRound (Order.size (order st) - pending))%float = true)).
Proof.
  split; [reflexivity|].
  apply (terminal_status_after Sample.eRound Sample.almostEqual
           Sample.newExecution (Sample.env [] Sample.feed false)
           (Sample.store Filled)).
  reflexivity.
Defined.

Lemma refresh_twice_stable_witness :
  let env := Sample.env [] Sample.feed true in
  let st := Sample.store Canceled in
  ∃ st1 st2,
    refresh env st = (st1, inr tt) ∧
    refresh env st1 = (st2, inr tt) ∧
    Order.status (order st2) = Order.status (order st1) ∧
    Order.executions (order st2) = Order.executions (order st1).
Proof.
  apply (refresh_twice_stable Sample.eRound Sample.almostEqual
           Sample.newExecution (Sample.env [] Sample.feed true)
           (Sample.env [] Sample.feed true) (Sample.store Canceled)
           [Sample.transaction "42" 1000100%Z 3%float;
            Sample.transaction "42" 1000300%Z (-2)%float]).
  - reflexivity.
  - reflexivity.
  - exists (OpenOrdersResponse.mk []). split; reflexivity.
  - exists Sample.feed. split; reflexivity.
  - discriminate.
  - reflexivity.
Defined.

Lemma cancel_acknowledged_witness :
  let env := Sample.env [] [] false in
  let st := Sample.store Open in
  ∃ st',
    cancel env st = (st', inl (cancelFailed "42")) ∧
    Order.status (order st') = Open ∧
    Order.lastUpdated (order st') = 1000000%Z.
Proof.
  apply (cancel_acknowledged (Sample.env [] [] false) (Sample.store Open)
           (CancelOrderResponse.mk false)).
  reflexivity.
Defined.

(** A cancel request that the remote side accepts. *)
Example cancel_accepted :
  let st' := (cancel (Sample.env [] [] true) (Sample.store Open)).1 in
  Order.status (order st') = Canceled ∧
  Order.lastUpdated (order st') = 2000000%Z.
Proof. split; reflexivity. Qed.

Lemma refresh_negative_filled_size_witness :
  ∃ env st brokerOrder pending st',
    Order.status (order st) = Open ∧
    Order.filledSize (order st) = 0%float ∧
    foundOpen env st brokerOrder ∧
    OpenOrder.pending_amount brokerOrder = Some pending ∧
    (pending =? 0)%float = false ∧
    (Order.size (order st) <? pending)%float = true ∧
    refresh env st = (st', inr tt) ∧
    Order.filledSize (order st') =
      Sample.eRound (Order.size (order st) - pending)%float ∧
    (Order.filledSize (order st') <? 0)%float = true ∧
    Order.status (order st') = Order.status (order st).
Proof.
  apply (refresh_negative_filled_size Sample.eRound Sample.almostEqual
           Sample.newExecution "Coincheck" "Cash" Open).
  reflexivity.
Defined.

Lemma strategy_not_found_witness :
  let this := Sample.adapter "MarginClose" in
  let env := Sample.env [] [] true in
  let st := mkStore (Sample.strayOrder Open) [] in
  dom (strategyMap this) = ({["Cash"; "MarginOpen"; "NetOut"]} : gset string) ∧
  getBtcPosition (λ mode, mode) this env st =
    (st, inl (Error "Unable to find a strategy for MarginClose.")) ∧
  send (λ mode, mode) this env st =
    (st, inl (Error "Unable to find a strategy for MarginClose.")).
Proof.
  destruct (strategy_not_found "Coincheck" "Cash" "MarginOpen" "NetOut"
              (λ mode, mode) Sample.strategy Sample.strategy Sample.strategy
              (mkBrokerConfig "key" "secret" "MarginClose")
              (Sample.env [] [] true)
              (mkStore (Sample.strayOrder Open) []))
    as (Hdom & Hget & Hsend).
  assert (Hstray : "MarginClose" ∉ ({["Cash"; "MarginOpen"; "NetOut"]} : gset string)).
  { rewrite !not_elem_of_union, !not_elem_of_singleton. by repeat split. }
  split; [exact Hdom|]. split.
  - apply Hget. rewrite Hdom. exact Hstray.
  - apply Hsend; [reflexivity|]. rewrite Hdom. exact Hstray.
Defined.

(** An order with the tag of another broker is turned away before any mode
    is resolved, with an error that has no message. *)
Example send_other_broker :
  let o := Order.mk "Quoine" "42" "MarginClose" 5%float 0%Z 0%float [] Open 0%Z in
  (send (λ mode, mode) (Sample.adapter "Cash") (Sample.env [] [] true)
     (mkStore o [])).2 = inl (Error EmptyString).
Proof. reflexivity. Qed.

Lemma mapToQuote_bounded_witness :
  length (mapToQuote (Sample.adapter "Cash") Sample.deepBook) = 200 ∧
  mapToQuote (Sample.adapter "Cash") Sample.deepBook !! 100 =
    Some (Quote.mk "Coincheck" Bid 699999%float 2%float).
Proof.
  destruct (mapToQuote_bounded (Sample.adapter "Cash") Sample.deepBook)
    as (asks & bids & Happ & _ & _ & _ & Hbids & Hfull & _).
  destruct Hfull as (Hasks & _ & Hlen); [cbn; lia|cbn; lia|].
  split; [exact Hlen|].
  rewrite Happ, lookup_app_r by lia.
  rewrite Hasks, Nat.sub_diag, Hbids. reflexivity.
Defined.

(** A short book: every entry is kept, asks first. *)
Example mapToQuote_short :
  mapToQuote (Sample.adapter "Cash")
    (OrderBooksResponse.mk [(3%float, 1%float); (4%float, 2%float)]
                           [(2%float, 5%float)]) =
  [Quote.mk "Coincheck" Ask 3%float 1%float;
   Quote.mk "Coincheck" Ask 4%float 2%float;
   Quote.mk "Coincheck" Bid 2%float 5%float].
Proof. reflexivity. Qed.

End Runs.

(** ** Every path of [refresh] and [cancel] *)

Section Paths.

Context {Broker CashMarginType Origin : Type}.
Context (eRound : number → number).
Context (almostEqual : number → number → number → bool).
Context (newExecution : Order.t Broker CashMarginType Origin → Origin).

Implicit Types (env : Env) (st : @Store Broker CashMarginType Origin).

#[local] Ltac run :=
  unfold refresh, cancel, mbind, M_bind, mret, M_ret, bind, ret,
    await, throw, readOrder, assign, newDate, log;
  cbn [order calls].

#[local] Abbreviation refresh := (refresh eRound almostEqual newExecution).
#[local] Abbreviation RefreshPath :=
  (RefreshPath eRound almostEqual newExecution).

(** A run of [refresh] follows one of its six paths. *)
Lemma refresh_path env st :
  ∃ cs o' r,
    refresh env st = (mkStore o' (calls st ++ cs), r) ∧
    RefreshPath env st cs o' r.
Proof.
  destruct (BrokerApi.getOpenOrders (brokerApi env)) as [e|reply] eqn:Hreply.
  { exists [GetOpenOrders], (order st), (inl e). split.
    - run. by rewrite Hreply.
    - by constructor. }
  destruct (Lodash.find (OpenOrdersResponse.orders reply)
              (λ x, bool_decide (OpenOrder.id x = Order.brokerOrderId (order st))))
    as [brokerOrder|] eqn:Hfind.
  - assert (Hfound : foundOpen env st brokerOrder) by (by exists reply).
    destruct (OpenOrder.pending_amount brokerOrder) as [pending|] eqn:Hp;
      [destruct (pending =? 0)%float eqn:Hz|].
    + exists [GetOpenOrders], (order st), (inl unexpectedReply). split.
      * apply refresh_run_unexpected with brokerOrder; eauto.
      * apply PendingUnusable with brokerOrder; eauto.
    + exists [GetOpenOrders],
        (stillOpen eRound (clock env) pending (order st)), (inr tt). split.
      * by apply refresh_run_open with brokerOrder.
      * by apply StillOpen with brokerOrder.
    + exists [GetOpenOrders], (order st), (inl unexpectedReply). split.
      * apply refresh_run_unexpected with brokerOrder; auto.
      * apply PendingUnusable with brokerOrder; auto.
  - assert (Habsent : absentOpen env st) by (by exists reply).
    destruct (BrokerApi.getTransactionsWithStartDate (brokerApi env)
                (feedStart (order st))) as [e|all] eqn:Hall.
    { exists [GetOpenOrders; GetTransactionsWithStartDate (feedStart (order st))],
        (order st), (inl e). split.
      - run. rewrite Hreply, Hfind. cbn. unfold feedStart in Hall.
        rewrite Hall. by rewrite <- !app_assoc.
      - by constructor. }
    destruct (List.filter
                (λ x, bool_decide
                        (Transaction.order_id x = Order.brokerOrderId (order st)))
                all) as [|x rest] eqn:Hfilter.
    + eexists _, (order st), (inr tt). split.
      * apply refresh_run_unseen; [done|by exists all].
      * constructor; [done|by exists all].
    + eexists _, _, (inr tt). split.
      * apply (refresh_run_settled _ _ _ env st (x :: rest));
          [done|by exists all|done].
      * constructor; [done|by exists all|done].
Qed.

(** X1. When [refresh] throws, whatever the error, the order is as it was
    before the call. *)
Theorem refresh_failure_leaves_order env st e :
  (refresh env st).2 = inl e →
  order (refresh env st).1 = order st.
Proof.
  destruct (refresh_path env st) as (cs & o' & r & -> & Hpath).
  cbn. intros ->. by inversion Hpath.
Qed.

(** X2. The errors [refresh] can throw: the rejection of the open-orders
    call, the rejection of the transactions call made after the snapshot did
    not list the order, or "Unexpected reply returned." for an order the
    snapshot lists without a usable pending amount. *)
Theorem refresh_error_origin env st e :
  (refresh env st).2 = inl e →
  BrokerApi.getOpenOrders (brokerApi env) = inl e ∨
  (absentOpen env st ∧
   BrokerApi.getTransactionsWithStartDate (brokerApi env)
     (feedStart (order st)) = inl e) ∨
  (e = unexpectedReply ∧
   ∃ brokerOrder,
     foundOpen env st brokerOrder ∧
     (OpenOrder.pending_amount brokerOrder = None ∨
      ∃ pending, OpenOrder.pending_amount brokerOrder = Some pending ∧
                 (pending =? 0)%float = true)).
Proof.
  destruct (refresh_path env st) as (cs & o' & r & -> & Hpath).
  cbn. intros ->. inversion Hpath; subst; eauto 6.
Qed.

(** X3. A rejection of either remote call comes out of [refresh] as it is. *)
Theorem refresh_rejection_propagates env st e :
  BrokerApi.getOpenOrders (brokerApi env) = inl e ∨
  (absentOpen env st ∧
   BrokerApi.getTransactionsWithStartDate (brokerApi env)
     (feedStart (order st)) = inl e) →
  (refresh env st).2 = inl e.
Proof.
  intros Hrej.
  destruct (refresh_path env st) as (cs & o' & r & -> & Hpath). cbn.
  destruct Hrej as [Hopen|[(reply & Hreply & Hnone) Hfeed]].
  - inversion Hpath as [e' He'| bo [? [He' _]] | bo p [? [He' _]]
                       | e' [? [He' _]] | [? [He' _]] | txs [? [He' _]]];
      congruence.
  - inversion Hpath as [e' He'| bo [? [He' Hf]] | bo p [? [He' Hf]]
                       | e' _ He' | _ [? [He' _]] | txs _ [? [He' _]]];
      try congruence.
    all: unfold feedStart in *; congruence.
Qed.

(** X4. Whatever happens, [refresh] first asks for the open orders, then at
    most once for the transactions since one minute (60000 ms) before the
    creation time of the order, then at most logs one warning; it makes no
    other call. *)
Theorem refresh_calls env st :
  let from := (Order.creationTime (order st) - 60000)%Z in
  newCalls st (refresh env st).1 = [GetOpenOrders] ∨
  newCalls st (refresh env st).1 =
    [GetOpenOrders; GetTransactionsWithStartDate from] ∨
  newCalls st (refresh env st).1 =
    [GetOpenOrders; GetTransactionsWithStartDate from;
     LogWarn notFoundWarning].
Proof.
  destruct (refresh_path env st) as (cs & o' & r & -> & Hpath).
  cbn [fst]. rewrite newCalls_app.
  assert (Hstart : feedStart (order st) =
                   (Order.creationTime (order st) - 60000)%Z).
  { unfold feedStart, DateFns.addMinutes. lia. }
  rewrite <- Hstart. inversion Hpath; auto.
Qed.

(** X5. On every path [refresh] leaves the broker tag, the broker order
    id, the mode, the requested size and the creation time of the order as
    they were. *)
Theorem refresh_keeps_identity env st :
  sameIdentity (order st) (order (refresh env st).1).
Proof.
  destruct (refresh_path env st) as (cs & o' & r & -> & Hpath).
  cbn [fst order]. inversion Hpath; subst; try by repeat split.
  unfold stillOpen. cbn. by destruct (0 <? _)%float.
Qed.

(** X6. [refresh] never sets the status to Open: an order that is Open
    after the call was Open before it. *)
Theorem refresh_never_opens env st :
  Order.status (order (refresh env st).1) = Open →
  Order.status (order st) = Open.
Proof.
  destruct (refresh_path env st) as (cs & o' & r & -> & Hpath).
  cbn [fst order]. inversion Hpath; subst; try done.
  - unfold stillOpen. cbn. by destruct (0 <? _)%float.
  - cbn. by destruct (almostEqual _ _ _).
Qed.

Lemma foundOpen_transfer env env' st st' brokerOrder :
  brokerApi env' = brokerApi env →
  Order.brokerOrderId (order st') = Order.brokerOrderId (order st) →
  foundOpen env st brokerOrder → foundOpen env' st' brokerOrder.
Proof.
  intros Hapi Hid (reply & Hreply & Hfind). exists reply.
  by rewrite Hapi, Hid.
Qed.

Lemma absentOpen_transfer env env' st st' :
  brokerApi env' = brokerApi env →
  Order.brokerOrderId (order st') = Order.brokerOrderId (order st) →
  absentOpen env st → absentOpen env' st'.
Proof.
  intros Hapi Hid (reply & Hreply & Hfind). exists reply.
  by rewrite Hapi, Hid.
Qed.

Lemma matchingTransactions_transfer env env' st st' transactions :
  brokerApi env' = brokerApi env →
  Order.brokerOrderId (order st') = Order.brokerOrderId (order st) →
  Order.creationTime (order st') = Order.creationTime (order st) →
  matchingTransactions env st transactions →
  matchingTransactions env' st' transactions.
Proof.
  intros Hapi Hid Htime (all & Hall & Hfilter). exists all.
  by rewrite Hapi, Hid, Htime.
Qed.

(** A path is taken again from any store with the same order, whatever the
    clock, as long as the remote side answers the same. *)
Lemma refresh_path_again env env' st st' cs o' r :
  brokerApi env' = brokerApi env →
  order st' = order st →
  RefreshPath env st cs o' r →
  ∃ o'', RefreshPath env' st' cs o'' r ∧ sameButLastUpdated o' o''.
Proof.
  intros Hapi Ho Hpath.
  assert (Hid : Order.brokerOrderId (order st') = Order.brokerOrderId (order st))
    by (by rewrite Ho).
  assert (Htime : Order.creationTime (order st') = Order.creationTime (order st))
    by (by rewrite Ho).
  inversion Hpath; subst.
  - exists (order st'). split; [|by rewrite Ho].
    constructor. by rewrite Hapi.
  - exists (order st'). split; [|by rewrite Ho].
    apply PendingUnusable with brokerOrder; [|done].
    by apply foundOpen_transfer with env st.
  - exists (stillOpen eRound (clock env') pending (order st')). split.
    + apply StillOpen with brokerOrder; [|done|done].
      by apply foundOpen_transfer with env st.
    + rewrite Ho. unfold sameButLastUpdated, stillOpen. cbn.
      by destruct (0 <? _)%float.
  - exists (order st'). split; [|by rewrite Ho].
    rewrite <- Ho. constructor.
    + by apply absentOpen_transfer with env st.
    + by rewrite Hapi, Ho.
  - exists (order st'). split; [|by rewrite Ho].
    rewrite <- Ho. constructor.
    + by apply absentOpen_transfer with env st.
    + by apply matchingTransactions_transfer with env st.
  - exists (settled eRound almostEqual newExecution (clock env') (order st')
              transactions).
    split; [|by rewrite Ho].
    rewrite <- Ho. constructor; [| |done].
    + by apply absentOpen_transfer with env st.
    + by apply matchingTransactions_transfer with env st.
Qed.

(** Conversely, a path tells how the run goes. *)
Lemma refresh_path_sound env st cs o' r :
  RefreshPath env st cs o' r →
  refresh env st = (mkStore o' (calls st ++ cs), r).
Proof.
  intros Hpath.
  inversion Hpath as [e He|bo Hfound Hbad|bo p Hfound Hp Hnz
                     |e Habsent Hrej|Habsent Hmatch|txs Habsent Hmatch Hne];
    subst.
  - run. by rewrite He.
  - by apply refresh_run_unexpected with bo.
  - by apply refresh_run_open with bo.
  - destruct Habsent as (reply & Hreply & Hfind). run.
    rewrite Hreply, Hfind. cbn. unfold feedStart in Hrej. rewrite Hrej.
    by rewrite <- !app_assoc.
  - by apply refresh_run_unseen.
  - by apply refresh_run_settled.
Qed.

(** X7. [refresh] is idempotent on every path: run again against the same
    remote answers, at any later clock reading, it ends the same way (the
    same error or the same normal return) and leaves every field of the
    order but [lastUpdated] as the first run left it.  The [Execution]
    constructor is taken to read only fields of the order that [refresh]
    does not assign. *)
Theorem refresh_idempotent env env' st :
  (∀ o o', sameIdentity o o' → newExecution o = newExecution o') →
  brokerApi env' = brokerApi env →
  (refresh env' (refresh env st).1).2 = (refresh env st).2 ∧
  sameButLastUpdated (order (refresh env' (refresh env st).1).1)
    (order (refresh env st).1).
Proof.
  intros Hctor Hapi.
  destruct (refresh_path env st) as (cs & o1 & r & Hrun & Hpath).
  rewrite Hrun. cbn [fst snd].
  set (st1 := mkStore o1 (calls st ++ cs)).
  inversion Hpath; subst.
  1,2,4,5:
    destruct (refresh_path_again env env' st st1 _ _ _ Hapi eq_refl Hpath)
      as (o'' & Hpath' & Hsame);
    rewrite (refresh_path_sound _ _ _ _ _ Hpath'); cbn [fst snd order];
    split; [done|]; subst st1; cbn [order] in *; symmetry; exact Hsame.
  - (* still open *)
    assert (Hfound' : foundOpen env' st1 brokerOrder)
      by (apply foundOpen_transfer with env st; [done| |done];
          subst st1; unfold stillOpen; cbn; by destruct (0 <? _)%float).
    rewrite (refresh_run_open _ _ _ env' st1 brokerOrder pending) by done.
    cbn [fst snd order]. split; [done|].
    subst st1. unfold sameButLastUpdated, stillOpen. cbn.
    destruct (0 <? eRound (Order.size (order st) - pending))%float eqn:Hpos;
      cbn; rewrite Hpos; done.
  - (* settled *)
    assert (Habsent' : absentOpen env' st1)
      by (by apply absentOpen_transfer with env st).
    assert (Hmatch' : matchingTransactions env' st1 transactions)
      by (by apply matchingTransactions_transfer with env st).
    rewrite (refresh_run_settled _ _ _ env' st1 transactions) by done.
    cbn [fst snd order]. split; [done|].
    subst st1. unfold sameButLastUpdated. cbn [order].
    assert (Hid : sameIdentity
              (settled eRound almostEqual newExecution (clock env) (order st)
                 transactions) (order st)) by (by repeat split).
    unfold settled at 1 3. cbn. unfold toExecution.
    by rewrite (Hctor _ _ Hid).
Qed.

(** [Math.abs] never returns a number below zero (NaN is not below zero). *)
Lemma abs_not_negative (x : number) : (PrimFloat.abs x <? 0)%float = false.
Proof.
  rewrite ltb_spec, abs_spec.
  replace (Prim2SF 0) with (S754_zero false) by reflexivity.
  by destruct (Prim2SF x) as [[]|[]| |[] m e].
Qed.

(** X8. Execution sizes below zero never appear: when no execution of the
    order has a size below zero before [refresh], none has after it, on any
    path; the executions [refresh] builds from transactions carry absolute
    values. *)
Theorem refresh_sizes_not_negative env st :
  sizesNotNegative (order st) →
  sizesNotNegative (order (refresh env st).1).
Proof.
  intros Hsizes.
  destruct (refresh_path env st) as (cs & o' & r & -> & Hpath).
  cbn [fst order]. inversion Hpath; subst; try done.
  - unfold sizesNotNegative, stillOpen in *. cbn.
    by destruct (0 <? _)%float.
  - unfold sizesNotNegative. cbn.
    apply Forall_forall. intros e Hin.
    apply list_elem_of_In, in_map_iff in Hin as (x & <- & _).
    apply abs_not_negative.
Qed.

(** X9. On the settled path the filled size is [eRound] of the absolute
    base-currency deltas of the matching transactions, added from left to
    right starting from the first one (no leading zero is added). *)
Theorem refresh_filled_size_sum env st first rest :
  absentOpen env st →
  matchingTransactions env st (first :: rest) →
  Order.filledSize (order (refresh env st).1) =
    eRound
      (fold_left
         (λ acc x, (acc + PrimFloat.abs (Funds.btc (Transaction.funds x)))%float)
         rest (PrimFloat.abs (Funds.btc (Transaction.funds first)))).
Proof.
  intros Habsent Hmatch.
  rewrite (refresh_run_settled _ _ _ env st (first :: rest) Habsent Hmatch)
    by done.
  cbn [fst order settled Order.filledSize Order.set_lastUpdated
       Order.set_status Order.set_filledSize Order.executions
       Order.set_executions].
  cbn [map]. rewrite sumBy_cons. f_equal. cbn [toExecution Execution.size].
  clear Hmatch.
  generalize (PrimFloat.abs (Funds.btc (Transaction.funds first))).
  induction rest as [|x rest IH]; intros acc; cbn; [done|]. apply IH.
Qed.

(** X10. When the snapshot lists the broker order id more than once, the
    first entry decides and the later ones are not looked at: with a usable
    pending amount in the first matching entry, [refresh] succeeds on it
    whatever follows. *)
Theorem refresh_first_entry_decides env st before brokerOrder after pending :
  BrokerApi.getOpenOrders (brokerApi env) =
    inr (OpenOrdersResponse.mk (before ++ brokerOrder :: after)) →
  Forall (λ x, OpenOrder.id x ≠ Order.brokerOrderId (order st)) before →
  OpenOrder.id brokerOrder = Order.brokerOrderId (order st) →
  OpenOrder.pending_amount brokerOrder = Some pending →
  (pending =? 0)%float = false →
  refresh env st =
    (mkStore (stillOpen eRound (clock env) pending (order st))
       (calls st ++ [GetOpenOrders]), inr tt).
Proof.
  intros Hreply Hbefore Hid Hpending Hnz.
  apply refresh_run_open with brokerOrder; [|done|done].
  eexists. split; [exact Hreply|]. cbn. unfold Lodash.find. clear Hreply.
  induction Hbefore as [|x before Hx _ IH]; cbn.
  - by rewrite (bool_decide_eq_true_2 _ Hid).
  - by rewrite (bool_decide_eq_false_2 _ Hx).
Qed.

(** The whole run of [cancel] when the remote call is rejected. *)
Lemma cancel_run_rejected env st e :
  BrokerApi.cancelOrder (brokerApi env) (Order.brokerOrderId (order st))
    = inl e →
  cancel env st =
    (mkStore (order st)
       (calls st ++ [CancelOrder (Order.brokerOrderId (order st))]), inl e).
Proof. intros Hreply. run. by rewrite Hreply. Qed.

(** X11. When [cancel] throws, the order is as it was, and the error is
    either the rejection of the remote call or "Cancel <order id> failed."
    after an answer that reports failure. *)
Theorem cancel_failure_leaves_order env st e :
  (cancel env st).2 = inl e →
  order (cancel env st).1 = order st ∧
  (BrokerApi.cancelOrder (brokerApi env) (Order.brokerOrderId (order st))
     = inl e ∨
   ∃ reply,
     BrokerApi.cancelOrder (brokerApi env) (Order.brokerOrderId (order st))
       = inr reply ∧
     CancelOrderResponse.success reply = false ∧
     e = cancelFailed (Order.brokerOrderId (order st))).
Proof.
  destruct (BrokerApi.cancelOrder (brokerApi env)
              (Order.brokerOrderId (order st))) as [e'|reply] eqn:Hreply.
  - rewrite (cancel_run_rejected env st e') by done. cbn.
    intros [= ->]. auto.
  - rewrite (cancel_run env st reply) by done.
    destruct (CancelOrderResponse.success reply) eqn:Hok; cbn; [done|].
    intros [= <-]. split; [done|]. right. by exists reply.
Qed.

(** X12. Whatever the remote side does, [cancel] makes exactly one call, the
    cancel request for the broker order id of the order, and assigns no
    field other than [status] and [lastUpdated]. *)
Theorem cancel_frame env st :
  newCalls st (cancel env st).1 =
    [CancelOrder (Order.brokerOrderId (order st))] ∧
  sameIdentity (order st) (order (cancel env st).1) ∧
  Order.filledSize (order (cancel env st).1) = Order.filledSize (order st) ∧
  Order.executions (order (cancel env st).1) = Order.executions (order st).
Proof.
  destruct (BrokerApi.cancelOrder (brokerApi env)
              (Order.brokerOrderId (order st))) as [e'|reply] eqn:Hreply.
  - rewrite (cancel_run_rejected env st e') by done. cbn [fst].
    rewrite newCalls_app. by repeat split.
  - rewrite (cancel_run env st reply) by done.
    destruct (CancelOrderResponse.success reply); cbn [fst];
      rewrite newCalls_app; by repeat split.
Qed.

(** X13. After a cancel that the remote side accepted, a [refresh] that
    finds the order neither in the open-orders snapshot nor in the feed
    returns normally and keeps the status Canceled and the time [cancel]
    recorded. *)
Theorem cancel_then_refresh env env' st reply :
  BrokerApi.cancelOrder (brokerApi env) (Order.brokerOrderId (order st))
    = inr reply →
  CancelOrderResponse.success reply = true →
  absentOpen env' st →
  matchingTransactions env' st [] →
  let st1 := (cancel env st).1 in
  (refresh env' st1).2 = inr tt ∧
  Order.status (order (refresh env' st1).1) = Canceled ∧
  Order.lastUpdated (order (refresh env' st1).1) = clock env.
Proof.
  intros Hreply Hok Habsent Hmatch st1. subst st1.
  rewrite (cancel_run env st reply) by done. rewrite Hok. cbn [fst].
  rewrite refresh_run_unseen; [done| |].
  - by apply absentOpen_transfer with env' st.
  - by apply matchingTransactions_transfer with env' st.
Qed.

End Paths.

(** ** Delegation to strategies and the quote feed *)

Section Delegation.

Context {Broker : Type} `{!EqDecision Broker}.
Context {CashMarginType : Type} `{Countable CashMarginType}.
Context {Origin : Type}.
Context (Coincheck : Broker).
Context (Cash MarginOpen NetOut : CashMarginType).
Context (showMode : CashMarginType → string).
Context (CashStrategy MarginOpenStrategy NetOutStrategy :
           @CashMarginTypeStrategy Broker CashMarginType Origin).

Implicit Types (env : Env) (st : @Store Broker CashMarginType Origin).
Implicit Types (this : @BrokerAdapterImpl Broker CashMarginType _ _ Origin).

#[local] Abbreviation new :=
  (constructor Coincheck Cash MarginOpen NetOut
     CashStrategy MarginOpenStrategy NetOutStrategy).

(** What the map of the constructor holds when the three modes differ. *)
Lemma constructor_lookup cfg :
  Cash ≠ MarginOpen → Cash ≠ NetOut → MarginOpen ≠ NetOut →
  strategyMap (new cfg) !! Cash = Some CashStrategy ∧
  strategyMap (new cfg) !! MarginOpen = Some MarginOpenStrategy ∧
  strategyMap (new cfg) !! NetOut = Some NetOutStrategy.
Proof.
  intros Hcm Hcn Hmn. cbn. repeat split.
  - rewrite !lookup_insert_ne by done. apply lookup_insert_eq.
  - rewrite lookup_insert_ne by done. apply lookup_insert_eq.
  - apply lookup_insert_eq.
Qed.

(** X14. [send] turns away an order with the tag of another broker before
    anything else: it throws an error with an empty message, whatever the
    mode of the order, without running any strategy, making any call or
    touching the order. *)
Theorem send_wrong_broker this env st :
  Order.broker (order st) ≠ broker this →
  send showMode this env st = (st, inl (Error EmptyString)).
Proof.
  intros Hbroker. unfold send, mbind, M_bind, bind, readOrder, throw.
  by rewrite (bool_decide_eq_false_2 _ Hbroker).
Qed.

(** X15. With three different modes, [send] on an order with the Coincheck
    tag runs the [send] of the strategy of the order's own mode, whatever
    mode the adapter is configured with. *)
Theorem send_dispatch cfg env st :
  Cash ≠ MarginOpen → Cash ≠ NetOut → MarginOpen ≠ NetOut →
  Order.broker (order st) = Coincheck →
  send showMode (new cfg) env st =
    (if decide (Order.cashMarginType (order st) = Cash)
     then strategy_send CashStrategy env st
     else if decide (Order.cashMarginType (order st) = MarginOpen)
     then strategy_send MarginOpenStrategy env st
     else if decide (Order.cashMarginType (order st) = NetOut)
     then strategy_send NetOutStrategy env st
     else (st, inl (strategyNotFound showMode
                      (Order.cashMarginType (order st))))).
Proof.
  intros Hcm Hcn Hmn Hbroker.
  destruct (constructor_lookup cfg Hcm Hcn Hmn) as (Hc & Hm & Hn).
  unfold send, mbind, M_bind, bind, readOrder, throw.
  rewrite (bool_decide_eq_true_2 _ Hbroker). cbn [negb].
  destruct (decide (Order.cashMarginType (order st) = Cash)) as [->|HnC];
    [by rewrite Hc|].
  destruct (decide (Order.cashMarginType (order st) = MarginOpen)) as [->|HnM];
    [by rewrite Hm|].
  destruct (decide (Order.cashMarginType (order st) = NetOut)) as [->|HnN];
    [by rewrite Hn|].
  cbn. by rewrite !lookup_insert_ne, lookup_empty by done.
Qed.

(** X16. With three different modes, [getBtcPosition] runs the
    [getBtcPosition] of the strategy of the configured mode. *)
Theorem getBtcPosition_dispatch cfg env st :
  Cash ≠ MarginOpen → Cash ≠ NetOut → MarginOpen ≠ NetOut →
  getBtcPosition showMode (new cfg) env st =
    (if decide (config_cashMarginType cfg = Cash)
     then strategy_getBtcPosition CashStrategy env st
     else if decide (config_cashMarginType cfg = MarginOpen)
     then strategy_getBtcPosition MarginOpenStrategy env st
     else if decide (config_cashMarginType cfg = NetOut)
     then strategy_getBtcPosition NetOutStrategy env st
     else (st, inl (strategyNotFound showMode (config_cashMarginType cfg)))).
Proof.
  intros Hcm Hcn Hmn.
  destruct (constructor_lookup cfg Hcm Hcn Hmn) as (Hc & Hm & Hn).
  unfold getBtcPosition. change (config (new cfg)) with cfg.
  destruct (decide (config_cashMarginType cfg = Cash)) as [->|HnC];
    [by rewrite Hc|].
  destruct (decide (config_cashMarginType cfg = MarginOpen)) as [->|HnM];
    [by rewrite Hm|].
  destruct (decide (config_cashMarginType cfg = NetOut)) as [->|HnN];
    [by rewrite Hn|].
  cbn. by rewrite !lookup_insert_ne, lookup_empty by done.
Qed.

(** X17. [fetchQuotes] never throws and never touches the order.  When the
    order-book call is rejected it logs the message of the error, then a
    debug line, and returns no quote; otherwise it returns the quotes of
    the reply and logs nothing. *)
Theorem fetchQuotes_fail_soft this env st :
  ∃ quotes,
    (fetchQuotes this env st).2 = inr quotes ∧
    order (fetchQuotes this env st).1 = order st ∧
    match BrokerApi.getOrderBooks (brokerApi env) with
    | inl (Error message) =>
        quotes = [] ∧
        newCalls st (fetchQuotes this env st).1 =
          [GetOrderBooks; LogError message; LogDebug]
    | inr response =>
        quotes = mapToQuote this response ∧
        newCalls st (fetchQuotes this env st).1 = [GetOrderBooks]
    end.
Proof.
  unfold fetchQuotes, tryCatch, mbind, M_bind, mret, M_ret, bind, ret, await,
    log, newCalls.
  cbn [order calls].
  destruct (BrokerApi.getOrderBooks (brokerApi env)) as [[message]|response];
    cbn; eexists; (split; [done|]); (split; [done|]); (split; [done|]).
  - by rewrite <- !app_assoc, drop_app_length.
  - by rewrite drop_app_length.
Qed.

Lemma mapToQuote_length this (orderBook : OrderBooksResponse.t) :
  length (mapToQuote this orderBook) =
    100 `min` length (OrderBooksResponse.asks orderBook) +
    100 `min` length (OrderBooksResponse.bids orderBook).
Proof.
  unfold mapToQuote, Lodash.concat, Lodash.take.
  by rewrite length_app, !length_map, !length_take.
Qed.

Lemma mapToQuote_broker this (orderBook : OrderBooksResponse.t) :
  Forall (λ q, Quote.broker q = broker this) (mapToQuote this orderBook).
Proof.
  unfold mapToQuote, Lodash.concat. apply Forall_app.
  split; apply Forall_forall; intros q Hq;
    apply list_elem_of_In, in_map_iff in Hq as (entry & <- & _); done.
Qed.

(** X18. Whatever the remote side answers, the adapter the constructor
    builds returns at most 200 quotes from [fetchQuotes], each with the
    Coincheck tag. *)
Theorem fetchQuotes_bounded cfg env st quotes :
  (fetchQuotes (new cfg) env st).2 = inr quotes →
  length quotes ≤ 200 ∧ Forall (λ q, Quote.broker q = Coincheck) quotes.
Proof.
  unfold fetchQuotes, tryCatch, mbind, M_bind, mret, M_ret, bind, ret, await,
    log.
  destruct (BrokerApi.getOrderBooks (brokerApi env)) as [[message]|response];
    cbn; intros [= <-].
  - split; [cbn; lia|constructor].
  - split.
    + rewrite mapToQuote_length. lia.
    + apply (mapToQuote_broker (new cfg)).
Qed.

(** X19. Only the first 100 entries of each side reach the quotes: two
    order books with the same first 100 asks and the same first 100 bids
    give the same quotes. *)
Theorem mapToQuote_prefix this (book book' : OrderBooksResponse.t) :
  take 100 (OrderBooksResponse.asks book) =
    take 100 (OrderBooksResponse.asks book') →
  take 100 (OrderBooksResponse.bids book) =
    take 100 (OrderBooksResponse.bids book') →
  mapToQuote this book = mapToQuote this book'.
Proof.
  intros Hasks Hbids. unfold mapToQuote, Lodash.take.
  by rewrite Hasks, Hbids.
Qed.

(** X20. The quotes give back the entries they were built from: their
    prices and sizes are the first 100 asks followed by the first 100 bids,
    and their sides are Ask for the former and Bid for the latter. *)
Theorem mapToQuote_entries this (orderBook : OrderBooksResponse.t) :
  map entryOf (mapToQuote this orderBook) =
    take 100 (OrderBooksResponse.asks orderBook) ++
    take 100 (OrderBooksResponse.bids orderBook) ∧
  map Quote.side (mapToQuote this orderBook) =
    replicate (100 `min` length (OrderBooksResponse.asks orderBook)) Ask ++
    replicate (100 `min` length (OrderBooksResponse.bids orderBook)) Bid.
Proof.
  unfold mapToQuote, Lodash.concat, Lodash.take.
  rewrite !map_app, !map_map. split.
  - f_equal; (etrans; [|apply map_id]); apply map_ext; by intros [].
  - rewrite <- !length_take. f_equal.
    + generalize (take 100 (OrderBooksResponse.asks orderBook)).
      intros l. induction l; cbn; [done|]. by f_equal.
    + generalize (take 100 (OrderBooksResponse.bids orderBook)).
      intros l. induction l; cbn; [done|]. by f_equal.
Qed.

End Delegation.

(** ** What [refresh] does not depend on *)

Section Isolation.

Context {Broker CashMarginType Origin : Type}.
Context (eRound : number → number).
Context (almostEqual : number → number → number → bool).
Context (newExecution : Order.t Broker CashMarginType Origin → Origin).

Implicit Types (env : Env) (st : @Store Broker CashMarginType Origin).

#[local] Abbreviation refresh := (refresh eRound almostEqual newExecution).

(** X21. Transactions of other orders do not count: against two remote
    sides that both leave the order out of the snapshot and whose feeds hold
    the same transactions of this order, in the same order, [refresh] at the
    same clock reading ends the same way and leaves the same order. *)
Theorem refresh_ignores_other_orders env env' st transactions :
  absentOpen env st → absentOpen env' st →
  matchingTransactions env st transactions →
  matchingTransactions env' st transactions →
  clock env' = clock env →
  (refresh env' st).2 = (refresh env st).2 ∧
  order (refresh env' st).1 = order (refresh env st).1.
Proof.
  intros Habsent Habsent' Hmatch Hmatch' Hclock.
  destruct transactions as [|x rest].
  - by rewrite !refresh_run_unseen.
  - rewrite (refresh_run_settled _ _ _ env st (x :: rest)) by done.
    rewrite (refresh_run_settled _ _ _ env' st (x :: rest)) by done.
    cbn [fst snd order]. by rewrite Hclock.
Qed.

(** X22. While the snapshot lists the order, the transactions feed has no
    say: two remote sides with the same open-orders answer give the same run
    of [refresh] at the same clock reading, calls included, whatever their
    feeds hold or whether their feeds answer at all. *)
Theorem refresh_open_ignores_feed env env' st brokerOrder :
  foundOpen env st brokerOrder →
  BrokerApi.getOpenOrders (brokerApi env') =
    BrokerApi.getOpenOrders (brokerApi env) →
  clock env' = clock env →
  refresh env' st = refresh env st.
Proof.
  intros Hfound Hsame Hclock.
  assert (Hfound' : foundOpen env' st brokerOrder).
  { destruct Hfound as (reply & Hreply & Hfind). exists reply.
    by rewrite Hsame. }
  destruct (OpenOrder.pending_amount brokerOrder) as [pending|] eqn:Hp;
    [destruct (pending =? 0)%float eqn:Hz|].
  - rewrite !(refresh_run_unexpected _ _ _ _ st brokerOrder); eauto.
  - rewrite !(refresh_run_open _ _ _ _ st brokerOrder pending) by done.
    by rewrite Hclock.
  - rewrite !(refresh_run_unexpected _ _ _ _ st brokerOrder); auto.
Qed.

End Isolation.

(** ** More concrete runs *)

Section MoreRuns.

#[local] Abbreviation refresh :=
  (refresh Sample.eRound Sample.almostEqual Sample.newExecution).

#[local] Abbreviation zeroPending :=
  (Sample.env (Sample.listed (Some 0%float)) Sample.feed true).

#[local] Abbreviation twoPending :=
  (Sample.env (Sample.listed (Some 2%float)) Sample.feed true).

#[local] Abbreviation settledFeed := (Sample.env [] Sample.feed true).

Lemma refresh_failure_leaves_order_witness :
  order (refresh zeroPending (Sample.store PartiallyFilled)).1 =
  order (Sample.store PartiallyFilled).
Proof.
  apply (refresh_failure_leaves_order Sample.eRound Sample.almostEqual
           Sample.newExecution zeroPending (Sample.store PartiallyFilled)
           unexpectedReply).
  reflexivity.
Defined.

Lemma refresh_error_origin_witness :
  let env := Sample.offline in
  let st := Sample.store Open in
  let e := Error "ETIMEDOUT" in
  BrokerApi.getOpenOrders (brokerApi env) = inl e ∨
  (absentOpen env st ∧
   BrokerApi.getTransactionsWithStartDate (brokerApi env)
     (feedStart (order st)) = inl e) ∨
  (e = unexpectedReply ∧
   ∃ brokerOrder,
     foundOpen env st brokerOrder ∧
     (OpenOrder.pending_amount brokerOrder = None ∨
      ∃ pending, OpenOrder.pending_amount brokerOrder = Some pending ∧
                 (pending =? 0)%float = true)).
Proof.
  apply (refresh_error_origin Sample.eRound Sample.almostEqual
           Sample.newExecution Sample.offline (Sample.store Open)
           (Error "ETIMEDOUT")).
  reflexivity.
Defined.

Lemma refresh_rejection_propagates_witness :
  (refresh Sample.offline (Sample.store Open)).2 = inl (Error "ETIMEDOUT").
Proof.
  apply (refresh_rejection_propagates Sample.eRound Sample.almostEqual
           Sample.newExecution Sample.offline (Sample.store Open)
           (Error "ETIMEDOUT")).
  left. reflexivity.
Defined.

Lemma refresh_never_opens_witness :
  Order.status (order (Sample.store Open)) = Open.
Proof.
  apply (refresh_never_opens Sample.eRound Sample.almostEqual
           Sample.newExecution (Sample.env [] [] true) (Sample.store Open)).
  reflexivity.
Defined.

Lemma refresh_idempotent_witness :
  let st1 := (refresh twoPending (Sample.store Open)).1 in
  (refresh twoPending st1).2 = (refresh twoPending (Sample.store Open)).2 ∧
  sameButLastUpdated (order (refresh twoPending st1).1) (order st1).
Proof.
  apply (refresh_idempotent Sample.eRound Sample.almostEqual
           Sample.newExecution twoPending twoPending (Sample.store Open)).
  - reflexivity.
  - reflexivity.
Defined.

Lemma refresh_sizes_not_negative_witness :
  sizesNotNegative (order (refresh settledFeed (Sample.store Open)).1).
Proof.
  apply (refresh_sizes_not_negative Sample.eRound Sample.almostEqual
           Sample.newExecution settledFeed (Sample.store Open)).
  constructor.
Defined.

Lemma refresh_filled_size_sum_witness :
  Order.filledSize (order (refresh settledFeed (Sample.store Open)).1) =
  Sample.eRound (PrimFloat.abs 3 + PrimFloat.abs (-2))%float.
Proof.
  apply (refresh_filled_size_sum Sample.eRound Sample.almostEqual
           Sample.newExecution settledFeed (Sample.store Open)
           (Sample.transaction "42" 1000100%Z 3%float)
           [Sample.transaction "42" 1000300%Z (-2)%float]).
  - exists (OpenOrdersResponse.mk []). split; reflexivity.
  - exists Sample.feed. split; reflexivity.
Defined.

Lemma refresh_first_entry_decides_witness :
  let open := Sample.listed (Some 2%float) ++ [OpenOrder.mk "42" (Some 0%float)] in
  let env := Sample.env open Sample.feed true in
  let st := Sample.store Open in
  refresh env st =
    (mkStore (stillOpen Sample.eRound (clock env) 2%float (order st))
       (calls st ++ [GetOpenOrders]), inr tt).
Proof.
  apply (refresh_first_entry_decides Sample.eRound Sample.almostEqual
           Sample.newExecution
           (Sample.env
              (Sample.listed (Some 2%float) ++ [OpenOrder.mk "42" (Some 0%float)])
              Sample.feed true)
           (Sample.store Open)
           [OpenOrder.mk "7" (Some 1%float)]
           (OpenOrder.mk "42" (Some 2%float))
           [OpenOrder.mk "42" (Some 0%float)] 2%float).
  - reflexivity.
  - repeat constructor. discriminate.
  - reflexivity.
  - reflexivity.
  - reflexivity.
Defined.

Lemma cancel_failure_leaves_order_witness :
  let env := Sample.env [] [] false in
  let st := Sample.store PartiallyFilled in
  let e := cancelFailed "42" in
  order (cancel env st).1 = order st ∧
  (BrokerApi.cancelOrder (brokerApi env) (Order.brokerOrderId (order st))
     = inl e ∨
   ∃ reply,
     BrokerApi.cancelOrder (brokerApi env) (Order.brokerOrderId (order st))
       = inr reply ∧
     CancelOrderResponse.success reply = false ∧
     e = cancelFailed (Order.brokerOrderId (order st))).
Proof.
  apply (cancel_failure_leaves_order (Sample.env [] [] false)
           (Sample.store PartiallyFilled) (cancelFailed "42")).
  reflexivity.
Defined.

Lemma cancel_then_refresh_witness :
  let env := Sample.env [] [] true in
  let st1 := (cancel env (Sample.store Open)).1 in
  (refresh env st1).2 = inr tt ∧
  Order.status (order (refresh env st1).1) = Canceled ∧
  Order.lastUpdated (order (refresh env st1).1) = 2000000%Z.
Proof.
  apply (cancel_then_refresh Sample.eRound Sample.almostEqual
           Sample.newExecution (Sample.env [] [] true) (Sample.env [] [] true)
           (Sample.store Open) (CancelOrderResponse.mk true)).
  - reflexivity.
  - reflexivity.
  - exists (OpenOrdersResponse.mk []). split; reflexivity.
  - exists []. split; reflexivity.
Defined.

Lemma send_wrong_broker_witness :
  let st := mkStore (Sample.orderFor "Quoine" "NetOut") [] in
  send (λ mode, mode) (Sample.desk "Cash") (Sample.env [] [] true) st =
    (st, inl (Error EmptyString)).
Proof.
  apply (send_wrong_broker (λ mode, mode) (Sample.desk "Cash")
           (Sample.env [] [] true)
           (mkStore (Sample.orderFor "Quoine" "NetOut") [])).
  discriminate.
Defined.

Lemma send_dispatch_witness :
  let st := mkStore (Sample.orderFor "Coincheck" "MarginOpen") [] in
  send (λ mode, mode) (Sample.desk "Cash") (Sample.env [] [] true) st =
    (mkStore (Sample.orderFor "Coincheck" "MarginOpen") [LogWarn "margin"],
     inr tt).
Proof.
  etrans.
  - apply (send_dispatch "Coincheck" "Cash" "MarginOpen" "NetOut"
             (λ mode, mode)
             (Sample.strategyOf "cash" 1%float)
             (Sample.strategyOf "margin" 2%float)
             (Sample.strategyOf "net" 3%float)
             (mkBrokerConfig "key" "secret" "Cash") (Sample.env [] [] true)
             (mkStore (Sample.orderFor "Coincheck" "MarginOpen") []));
      [discriminate|discriminate|discriminate|reflexivity].
  - reflexivity.
Defined.

Lemma getBtcPosition_dispatch_witness :
  let st := Sample.store Open in
  getBtcPosition (λ mode, mode) (Sample.desk "NetOut") (Sample.env [] [] true) st =
    (st, inr 3%float).
Proof.
  etrans.
  - apply (getBtcPosition_dispatch "Coincheck" "Cash" "MarginOpen" "NetOut"
             (λ mode, mode)
             (Sample.strategyOf "cash" 1%float)
             (Sample.strategyOf "margin" 2%float)
             (Sample.strategyOf "net" 3%float)
             (mkBrokerConfig "key" "secret" "NetOut") (Sample.env [] [] true)
             (Sample.store Open));
      discriminate.
  - reflexivity.
Defined.

Lemma fetchQuotes_bounded_witness :
  let quotes := mapToQuote (Sample.adapter "Cash") Sample.deepBook in
  length quotes ≤ 200 ∧ Forall (λ q, Quote.broker q = "Coincheck") quotes.
Proof.
  apply (fetchQuotes_bounded "Coincheck" "Cash" "MarginOpen" "NetOut"
           Sample.strategy Sample.strategy Sample.strategy
           (mkBrokerConfig "key" "secret" "Cash")
           (Sample.market Sample.deepBook) (Sample.store Open)).
  reflexivity.
Defined.

Lemma mapToQuote_prefix_witness :
  mapToQuote (Sample.adapter "Cash") Sample.deepBook =
  mapToQuote (Sample.adapter "Cash")
    (OrderBooksResponse.mk
       (replicate 100 (700001%float, 1%float))
       (replicate 100 (699999%float, 2%float) ++ [(1%float, 1%float)])).
Proof.
  apply (mapToQuote_prefix (Sample.adapter "Cash")); reflexivity.
Defined.

Lemma refresh_ignores_other_orders_witness :
  let env := Sample.env [] Sample.feed true in
  let env' :=
    Sample.env [OpenOrder.mk "7" None]
      [Sample.transaction "42" 1000100%Z 3%float;
       Sample.transaction "42" 1000300%Z (-2)%float;
       Sample.transaction "8" 1000400%Z 9%float] true in
  let st := Sample.store Open in
  (refresh env' st).2 = (refresh env st).2 ∧
  order (refresh env' st).1 = order (refresh env st).1.
Proof.
  apply (refresh_ignores_other_orders Sample.eRound Sample.almostEqual
           Sample.newExecution _ _ _
           [Sample.transaction "42" 1000100%Z 3%float;
            Sample.transaction "42" 1000300%Z (-2)%float]).
  - exists (OpenOrdersResponse.mk []). split; reflexivity.
  - exists (OpenOrdersResponse.mk [OpenOrder.mk "7" None]). split; reflexivity.
  - exists Sample.feed. split; reflexivity.
  - eexists. split; reflexivity.
  - reflexivity.
Defined.

Lemma refresh_open_ignores_feed_witness :
  refresh (Sample.env (Sample.listed (Some 2%float)) [] false)
    (Sample.store Open) =
  refresh twoPending (Sample.store Open).
Proof.
  apply (refresh_open_ignores_feed Sample.eRound Sample.almostEqual
           Sample.newExecution twoPending
           (Sample.env (Sample.listed (Some 2%float)) [] false)
           (Sample.store Open) (OpenOrder.mk "42" (Some 2%float))).
  - exists (OpenOrdersResponse.mk (Sample.listed (Some 2%float))).
    split; reflexivity.
  - reflexivity.
  - reflexivity.
Defined.

End MoreRuns.
